(** * z1: a simulated drone and the fleet controller in front of it

    A shallow embedding of [drone.py] (the per-vehicle emulator: [DroneState],
    its REST handlers and the background simulation step) and of [drones.py]
    (the fleet controller: the relay [send_to_drone], the command handlers and
    the telemetry loop), with the properties the specification states about
    them.

    Numbers.  The emulator computes on Python floats.  The embedding is
    written once, over an interface [PyFloat] of exactly the operations the
    source uses, and read at two carriers:
    - [R], exact real arithmetic, in which the quantified statements about
      distances and step counts are made and proved;
    - [float], Rocq's binary64 numbers, on which the same definitions run
      ([vm_compute]) on concrete inputs.
    Statements that do not depend on arithmetic are proved for every carrier. *)

From Stdlib Require Import Reals Lra Lia ZArith QArith Qreals.
From Stdlib Require Floats.PrimFloat Numbers.Cyclic.Int63.Uint63.
From stdpp Require Import gmap strings list.

(** ** The arithmetic the source uses *)

(** [lit q] is the value of the decimal literal [q]; [fsquare x] is [x ** 2]
    and [froot x] is [x ** 0.5]; [flt] is [<]; [truthy x] is Python's
    [bool(x)], false exactly at zero. *)
Class PyFloat (F : Type) := {
  lit : Q -> F;
  fadd : F -> F -> F;
  fsub : F -> F -> F;
  fmul : F -> F -> F;
  fdiv : F -> F -> F;
  fsquare : F -> F;
  froot : F -> F;
  flt : F -> F -> bool;
  truthy : F -> bool
}.

(** Python's two-argument [min] and [max] keep the first argument unless the
    second is strictly smaller (larger). *)
Definition pymin {F} `{PyFloat F} (a b : F) : F := if flt b a then b else a.
Definition pymax {F} `{PyFloat F} (a b : F) : F := if flt a b then b else a.

Definition Rltb (x y : R) : bool := if Rlt_dec x y then true else false.
Definition Rtruthy (x : R) : bool := if Req_dec_T x 0 then false else true.

(** Exact arithmetic. *)
#[export] Instance PyFloat_R : PyFloat R := {|
  lit := Q2R;
  fadd := Rplus;
  fsub := Rminus;
  fmul := Rmult;
  fdiv := Rdiv;
  fsquare := fun x => (x * x)%R;
  froot := sqrt;
  flt := Rltb;
  truthy := Rtruthy
|}.

(** Binary64.  A literal [n # d] with [n] and [d] below [2^53] is the correctly
    rounded quotient, which is how Python reads the decimal.  [x ** 2] and
    [x ** 0.5] go through the C library's [pow]; they are evaluated here as the
    correctly rounded product and square root, and a result beyond the double
    range is the infinity ([**] raises OverflowError there instead). *)
Abbreviation float := PrimFloat.float.

Definition float_of_Z (z : Z) : float :=
  match z with
  | Zneg p => PrimFloat.opp (PrimFloat.of_uint63 (Uint63.of_Z (Zpos p)))
  | _ => PrimFloat.of_uint63 (Uint63.of_Z z)
  end.

#[export] Instance PyFloat_float : PyFloat float := {|
  lit := fun q => PrimFloat.div (float_of_Z (Qnum q)) (float_of_Z (Zpos (Qden q)));
  fadd := PrimFloat.add;
  fsub := PrimFloat.sub;
  fmul := PrimFloat.mul;
  fdiv := PrimFloat.div;
  fsquare := fun x => PrimFloat.mul x x;
  froot := PrimFloat.sqrt;
  flt := PrimFloat.ltb;
  truthy := fun x => negb (PrimFloat.eqb x PrimFloat.zero)
|}.

(** ** drone.py *)

Module Vehicle.

Section Model.
Context {F : Type} `{PyFloat F}.

(** [class DroneState]: the attributes [__init__] creates. *)
Record DroneState := mkDroneState {
  is_flying : bool;
  latitude : F;
  longitude : F;
  altitude : F;
  speed : F;
  battery : F;
  moving_to_target : bool;
  target_latitude : F;
  target_longitude : F;
  target_altitude : F;
  movement_speed : F
}.

(** [DroneState.__init__]; the module-level [drone = DroneState()]. *)
Definition DroneState_init : DroneState := {|
  is_flying := false;
  latitude := lit 0;
  longitude := lit 0;
  altitude := lit 0;
  speed := lit 0;
  battery := lit 100;
  moving_to_target := false;
  target_latitude := lit 0;
  target_longitude := lit 0;
  target_altitude := lit 0;
  movement_speed := lit 5
|}.

(** [((dlat * 111000) ** 2 + (dlon * 111000) ** 2 + dalt ** 2) ** 0.5], the
    expression both [update_position] and [update_movement] evaluate. *)
Definition flat_distance (dlat dlon dalt : F) : F :=
  froot (fadd (fadd (fsquare (fmul dlat (lit 111000)))
                    (fsquare (fmul dlon (lit 111000))))
              (fsquare dalt)).

(** [DroneState.update_position(dlat, dlon, dalt)]. *)
Definition update_position (dlat dlon dalt : F) (self : DroneState) : DroneState :=
  if is_flying self then
    let distance := flat_distance dlat dlon dalt in
    {| is_flying := is_flying self;
       latitude := fadd (latitude self) dlat;
       longitude := fadd (longitude self) dlon;
       altitude := fadd (altitude self) dalt;
       speed := fdiv distance (lit 0.1);
       battery := fsub (battery self) (lit 0.01);
       moving_to_target := moving_to_target self;
       target_latitude := target_latitude self;
       target_longitude := target_longitude self;
       target_altitude := target_altitude self;
       movement_speed := movement_speed self |}
  else self.

(** [DroneState.start_move_to(lat, lon, alt)]. *)
Definition start_move_to (lat lon alt : F) (self : DroneState) : DroneState :=
  if is_flying self then
    {| is_flying := is_flying self;
       latitude := latitude self;
       longitude := longitude self;
       altitude := altitude self;
       speed := speed self;
       battery := battery self;
       moving_to_target := true;
       target_latitude := lat;
       target_longitude := lon;
       target_altitude := alt;
       movement_speed := movement_speed self |}
  else self.

(** The distance [update_movement] measures from the current position to the
    target. *)
Definition distance_to_target (self : DroneState) : F :=
  flat_distance (fsub (target_latitude self) (latitude self))
                (fsub (target_longitude self) (longitude self))
                (fsub (target_altitude self) (altitude self)).

(** [DroneState.update_movement(dt)]. *)
Definition update_movement (dt : F) (self : DroneState) : DroneState :=
  if negb (is_flying self) || negb (moving_to_target self) then self
  else
    let dlat := fsub (target_latitude self) (latitude self) in
    let dlon := fsub (target_longitude self) (longitude self) in
    let dalt := fsub (target_altitude self) (altitude self) in
    let distance := flat_distance dlat dlon dalt in
    if flt distance (lit 0.1) then
      {| is_flying := is_flying self;
         latitude := target_latitude self;
         longitude := target_longitude self;
         altitude := target_altitude self;
         speed := lit 0;
         battery := battery self;
         moving_to_target := false;
         target_latitude := target_latitude self;
         target_longitude := target_longitude self;
         target_altitude := target_altitude self;
         movement_speed := movement_speed self |}
    else
      let step_distance := fmul (movement_speed self) dt in
      let step_ratio :=
        pymin (fdiv step_distance (pymax distance (lit 0.0001))) (lit 1) in
      let dlat_step := fmul dlat step_ratio in
      let dlon_step := fmul dlon step_ratio in
      let dalt_step := fmul dalt step_ratio in
      {| is_flying := is_flying self;
         latitude := fadd (latitude self) dlat_step;
         longitude := fadd (longitude self) dlon_step;
         altitude := fadd (altitude self) dalt_step;
         speed := fdiv step_distance dt;
         battery := fsub (battery self) (lit 0.01);
         moving_to_target := moving_to_target self;
         target_latitude := target_latitude self;
         target_longitude := target_longitude self;
         target_altitude := target_altitude self;
         movement_speed := movement_speed self |}.

(** The body of a request to [/api/drone/move] or [/api/drone/move_to].  The
    bounds its [Field]s declare are checked by the framework before a handler
    runs; the handlers below are what runs after. *)
Record MoveRequest := mkMoveRequest {
  req_latitude : F;
  req_longitude : F;
  req_altitude : F
}.

(** What a handler answers: the ["status"] string, and the ["message"], kept as
    the data its f-string prints. *)
Inductive Message :=
| TookOff (altitude : F)
| AlreadyFlying
| Landed
| NotFlying
| MovedTo (lat lon alt : F)
| MovingTo (lat lon alt : F).

Record Reply := mkReply { status : string; message : Message }.

(** [POST /api/drone/takeoff]; [altitude] is the query parameter, 10.0 when
    the request leaves it out. *)
Definition takeoff (altitude : F) (drone : DroneState) : DroneState * Reply :=
  if negb (is_flying drone) then
    ({| is_flying := true;
        latitude := latitude drone;
        longitude := longitude drone;
        altitude := altitude;
        speed := speed drone;
        battery := battery drone;
        moving_to_target := moving_to_target drone;
        target_latitude := target_latitude drone;
        target_longitude := target_longitude drone;
        target_altitude := target_altitude drone;
        movement_speed := movement_speed drone |},
     mkReply "success" (TookOff altitude))
  else (drone, mkReply "error" AlreadyFlying).

(** [POST /api/drone/land]. *)
Definition land (drone : DroneState) : DroneState * Reply :=
  if is_flying drone then
    ({| is_flying := false;
        latitude := latitude drone;
        longitude := longitude drone;
        altitude := lit 0;
        speed := lit 0;
        battery := battery drone;
        moving_to_target := false;
        target_latitude := target_latitude drone;
        target_longitude := target_longitude drone;
        target_altitude := target_altitude drone;
        movement_speed := movement_speed drone |},
     mkReply "success" Landed)
  else (drone, mkReply "error" NotFlying).

(** [POST /api/drone/move]. *)
Definition move (mv : MoveRequest) (drone : DroneState) : DroneState * Reply :=
  if is_flying drone then
    let drone' :=
      update_position (req_latitude mv) (req_longitude mv) (req_altitude mv) drone in
    (drone',
     mkReply "success" (MovedTo (latitude drone') (longitude drone') (altitude drone')))
  else (drone, mkReply "error" NotFlying).

(** [POST /api/drone/move_to]. *)
Definition move_to (mv : MoveRequest) (drone : DroneState) : DroneState * Reply :=
  if is_flying drone then
    (start_move_to (req_latitude mv) (req_longitude mv) (req_altitude mv) drone,
     mkReply "success"
       (MovingTo (req_latitude mv) (req_longitude mv) (req_altitude mv)))
  else (drone, mkReply "error" NotFlying).

(** One iteration of the [while True] loop of [simulate_drone]: the tick. *)
Definition simulate_drone_step (drone : DroneState) : DroneState :=
  if is_flying drone then
    if moving_to_target drone then update_movement (lit 0.1) drone
    else update_position (lit 0.0001) (lit 0.0001) (lit 0) drone
  else drone.

(** Everything that writes the shared [drone]: the four commands and the tick. *)
Inductive Operation :=
| OpTakeoff (altitude : F)
| OpLand
| OpMove (mv : MoveRequest)
| OpMoveTo (mv : MoveRequest)
| OpTick.

Definition apply_op (op : Operation) (drone : DroneState) : DroneState :=
  match op with
  | OpTakeoff a => fst (takeoff a drone)
  | OpLand => fst (land drone)
  | OpMove mv => fst (move mv drone)
  | OpMoveTo mv => fst (move_to mv drone)
  | OpTick => simulate_drone_step drone
  end.

(** The state after a history of operations, oldest first. *)
Definition run (ops : list Operation) (drone : DroneState) : DroneState :=
  fold_left (fun d op => apply_op op d) ops drone.

(** *** What the statements are written with *)

(** The state a successful takeoff leaves: airborne at the requested altitude,
    every other attribute as before. *)
Definition airborne_at (altitude : F) (drone : DroneState) : DroneState :=
  {| is_flying := true;
     latitude := latitude drone;
     longitude := longitude drone;
     altitude := altitude;
     speed := speed drone;
     battery := battery drone;
     moving_to_target := moving_to_target drone;
     target_latitude := target_latitude drone;
     target_longitude := target_longitude drone;
     target_altitude := target_altitude drone;
     movement_speed := movement_speed drone |}.

(** The state a successful landing leaves: on the ground at altitude and
    speed zero, not seeking, every other attribute as before. *)
Definition grounded_from (drone : DroneState) : DroneState :=
  {| is_flying := false;
     latitude := latitude drone;
     longitude := longitude drone;
     altitude := lit 0;
     speed := lit 0;
     battery := battery drone;
     moving_to_target := false;
     target_latitude := target_latitude drone;
     target_longitude := target_longitude drone;
     target_altitude := target_altitude drone;
     movement_speed := movement_speed drone |}.

(** The goal a state is seeking, as the request that would have set it. *)
Definition target (drone : DroneState) : MoveRequest :=
  mkMoveRequest (target_latitude drone) (target_longitude drone)
                (target_altitude drone).

(** Seeking only while airborne. *)
Definition seeking_airborne (drone : DroneState) : Prop :=
  moving_to_target drone = true -> is_flying drone = true.

(** Seeking only while airborne, and towards a goal some accepted
    [move_to] of the history [ops] asked for. *)
Definition seeking_wf (ops : list Operation) (drone : DroneState) : Prop :=
  moving_to_target drone = true ->
  is_flying drone = true /\ OpMoveTo (target drone) ∈ ops.

End Model.

Arguments DroneState F : clear implicits.
Arguments MoveRequest F : clear implicits.
Arguments Message F : clear implicits.
Arguments Reply F : clear implicits.
Arguments Operation F : clear implicits.

(** *** Read in exact arithmetic *)

(** The tick of a seeking drone: [update_movement(dt=0.1)].  The statements
    about it are made for the states [within_limits] below delimits. *)
Definition tick (drone : DroneState R) : DroneState R :=
  update_movement (lit 0.1) drone.


Definition Seeking (drone : DroneState R) : Prop :=
  is_flying drone = true /\ moving_to_target drone = true.

(** Snapped: exactly on the goal, at rest, no longer seeking. *)
Definition snapped_to (goal : MoveRequest R) (drone : DroneState R) : Prop :=
  latitude drone = req_latitude goal
  /\ longitude drone = req_longitude goal
  /\ altitude drone = req_altitude goal
  /\ speed drone = 0%R
  /\ moving_to_target drone = false.



(** Right after a takeoff to 10 m: airborne, no goal. *)
Definition hovering_10m : DroneState R := fst (takeoff 10%R DroneState_init).

(** *** Read in binary64 *)

(** The spec's example again, on doubles. *)
Definition north_10m_b64 : DroneState float :=
  fst (move_to (mkMoveRequest (fdiv (lit 10) (lit 111000)) (lit 0) (lit 10))
         (fst (takeoff (lit 10) DroneState_init))).

(** The longest leg [within_limits] admits: from the corner [(-90, -180)],
    ten metres up, to the corner [(90, 180)] at 1000 km. *)
Definition far_corner_b64 : DroneState float :=
  fst (move_to (mkMoveRequest (lit 90) (lit 180) (lit 1000000))
         (fst (move (mkMoveRequest (lit (-90)) (lit (-180)) (lit 0))
                 (fst (takeoff (lit 10) DroneState_init))))).

(** Airborne at [2^54] m and sent to [10^17] m. *)
Definition stalled_b64 : DroneState float :=
  fst (move_to (mkMoveRequest (lit 0) (lit 0) (lit 100000000000000000))
         (fst (takeoff (lit 18014398509481984) DroneState_init))).

End Vehicle.

(** ** drones.py *)

Module Fleet.

(** [func.now()], the database clock. *)
Definition Timestamp := Z.

(** A client of the telemetry channel: the [WebSocket] object, by identity. *)
Definition WebSocket := nat.

Inductive Method := POST | GET.

Section Model.
Context {F : Type} `{PyFloat F}.

(** A row of the table [drones]; the primary key [id] is the key of the
    table.  The columns without a default are nullable. *)
Record Drone := mkDrone {
  name : string;
  owner_id : Z;
  current_lat : option F;
  current_lng : option F;
  current_altitude : option F;
  current_status : string;
  battery_level : Z;
  max_speed : F;
  created_at : Timestamp;
  updated_at : Timestamp;
  ip : string;
  port : string
}.

(** JSON values: request bodies and what a vehicle replies. *)
#[local] Unset Elimination Schemes.
Inductive Json :=
| JNull
| JBool (b : bool)
| JNum (x : F)
| JStr (s : string)
| JObj (fields : list (string * Json)).
#[local] Set Elimination Schemes.

(** The body of [/api/drones/{drone_id}/move] and [.../move_to]. *)
Record MoveRequest := mkMoveRequest {
  longitude : F;
  latitude : F;
  altitude : F
}.

(** [move.dict()]. *)
Definition MoveRequest_dict (mv : MoveRequest) : Json :=
  JObj [("longitude", JNum (longitude mv));
        ("latitude", JNum (latitude mv));
        ("altitude", JNum (altitude mv))]%string.

(** A call on the [httpx] client. *)
Record Request := mkRequest {
  method : Method;
  url : string;
  json : option Json
}.

(** How a call ends: a response that passes [raise_for_status], with its
    JSON body; a response with an error status, for which [raise_for_status]
    raises [httpx.HTTPStatusError]; or no response, [httpx.RequestError].
    The vehicles of [drone.py] answer in JSON, so a body [response.json()]
    cannot read is not among the cases. *)
Inductive Outcome :=
| Responded (body : Json)
| HTTPStatusError (status_code : Z)
| RequestError (why : string).

(** The ["detail"] of an [HTTPException], kept as the data its string shows. *)
Inductive Detail :=
| DroneNotFound (drone_id : Z)
| UpstreamStatus (status_code : Z) (request : Request)
| CommunicationFailed (drone_id : Z) (why : string).

Record HTTPException := mkHTTPException {
  exc_status_code : Z;
  exc_detail : Detail
}.

(** What a handler hands back to the framework. *)
Inductive Result (A : Type) :=
| Returned (a : A)
| Raised (e : HTTPException).
Arguments Returned {A} a.
Arguments Raised {A} e.

(** The world a handler runs in: the table, and the calls made on the network
    so far, oldest first. *)
Record World := mkWorld {
  drones : gmap Z Drone;
  wire : list Request
}.

(** The vehicles, as the network shows them. *)
Variable net : Request -> Outcome.

(** [get_drone_url(drone_id, db)]. *)
Definition get_drone_url (drone_id : Z) (db : gmap Z Drone) : Result string :=
  match db !! drone_id with
  | None => Raised (mkHTTPException 404 (DroneNotFound drone_id))
  | Some drone => Returned ("http://" ++ ip drone ++ ":" ++ port drone)%string
  end.

(** [send_to_drone(drone_id, endpoint, method, data)]. *)
Definition send_to_drone (drone_id : Z) (endpoint : string) (method : Method)
    (data : option Json) (w : World) : World * Result Json :=
  match get_drone_url drone_id (drones w) with
  | Raised e => (w, Raised e)
  | Returned drone_url =>
      let request :=
        match method with
        | POST => mkRequest POST (drone_url ++ endpoint) data
        | GET => mkRequest GET (drone_url ++ endpoint) None
        end in
      let w' := mkWorld (drones w) (wire w ++ [request]) in
      match net request with
      | Responded body => (w', Returned body)
      | HTTPStatusError status_code =>
          (w', Raised (mkHTTPException status_code (UpstreamStatus status_code request)))
      | RequestError why =>
          (w', Raised (mkHTTPException 500 (CommunicationFailed drone_id why)))
      end
  end.

(** What a relay handler returns: [{"drone_id", "status", "result"}] for a
    command, [{"drone_id", "status"}] for the status query. *)
Inductive Envelope :=
| CommandSent (drone_id : Z) (status : string) (result : Json)
| StatusOf (drone_id : Z) (status : Json).

(** [.update({"current_status": ..., "updated_at": func.now()})]. *)
Definition set_status (status : string) (now : Timestamp) (d : Drone) : Drone :=
  {| name := name d;
     owner_id := owner_id d;
     current_lat := current_lat d;
     current_lng := current_lng d;
     current_altitude := current_altitude d;
     current_status := status;
     battery_level := battery_level d;
     max_speed := max_speed d;
     created_at := created_at d;
     updated_at := now;
     ip := ip d;
     port := port d |}.

(** [.update({"current_lat": ..., "current_lng": ..., "current_altitude": ...,
    "updated_at": func.now()})]; the columns hold the values of the request
    (rounding them to the column's scale is the database's). *)
Definition set_position (mv : MoveRequest) (now : Timestamp) (d : Drone) : Drone :=
  {| name := name d;
     owner_id := owner_id d;
     current_lat := Some (latitude mv);
     current_lng := Some (longitude mv);
     current_altitude := Some (altitude mv);
     current_status := current_status d;
     battery_level := battery_level d;
     max_speed := max_speed d;
     created_at := created_at d;
     updated_at := now;
     ip := ip d;
     port := port d |}.

(** [db.query(Drone).filter(Drone.id == drone_id).update(...)] and
    [db.commit()]. *)
Definition update_drone (f : Drone -> Drone) (drone_id : Z) (w : World) : World :=
  mkWorld (alter f drone_id (drones w)) (wire w).

(** [result = await send_to_drone(...)] followed by the rest of the handler:
    an exception out of the call leaves the handler there. *)
Definition on_result {A} (call : World * Result Json)
    (rest : Json -> World -> World * Result A) : World * Result A :=
  match call with
  | (w, Returned result) => rest result w
  | (w, Raised e) => (w, Raised e)
  end.

(** [POST /api/drones/{drone_id}/takeoff]. *)
Definition takeoff_drone (now : Timestamp) (drone_id : Z)
    (w : World) : World * Result Envelope :=
  on_result (send_to_drone drone_id "/api/drone/takeoff" POST None w)
    (fun result w =>
       (update_drone (set_status "flying" now) drone_id w,
        Returned (CommandSent drone_id "takeoff initiated" result))).

(** [POST /api/drones/{drone_id}/land]. *)
Definition land_drone (now : Timestamp) (drone_id : Z)
    (w : World) : World * Result Envelope :=
  on_result (send_to_drone drone_id "/api/drone/land" POST None w)
    (fun result w =>
       (update_drone (set_status "stopped" now) drone_id w,
        Returned (CommandSent drone_id "landing initiated" result))).

(** [POST /api/drones/{drone_id}/move]. *)
Definition move_drone (now : Timestamp) (drone_id : Z) (mv : MoveRequest)
    (w : World) : World * Result Envelope :=
  on_result
    (send_to_drone drone_id "/api/drone/move" POST (Some (MoveRequest_dict mv)) w)
    (fun result w =>
       (update_drone (set_position mv now) drone_id w,
        Returned (CommandSent drone_id "move command sent" result))).

(** [POST /api/drones/{drone_id}/move_to]. *)
Definition move_to_drone (now : Timestamp) (drone_id : Z) (mv : MoveRequest)
    (w : World) : World * Result Envelope :=
  on_result
    (send_to_drone drone_id "/api/drone/move_to" POST (Some (MoveRequest_dict mv)) w)
    (fun result w =>
       (update_drone (set_position mv now) drone_id w,
        Returned (CommandSent drone_id "move_to command sent" result))).

(** [GET /api/drones/{drone_id}/status]. *)
Definition get_drone_status (drone_id : Z) (w : World) : World * Result Envelope :=
  on_result (send_to_drone drone_id "/api/drone/status" GET None w)
    (fun result w => (w, Returned (StatusOf drone_id result))).

(** The relay's routes. *)
Inductive Command :=
| Takeoff
| Land
| Move (mv : MoveRequest)
| MoveTo (mv : MoveRequest)
| Status.

Definition relay (now : Timestamp) (drone_id : Z) (cmd : Command)
    (w : World) : World * Result Envelope :=
  match cmd with
  | Takeoff => takeoff_drone now drone_id w
  | Land => land_drone now drone_id w
  | Move mv => move_drone now drone_id mv w
  | MoveTo mv => move_to_drone now drone_id mv w
  | Status => get_drone_status drone_id w
  end.

(** *** Registration *)

(** The body of [/api/drones/register]; [max_speed] is 50.0 when the request
    leaves it out. *)
Record DroneRegisterRequest := mkDroneRegisterRequest {
  reg_name : string;
  reg_owner_id : Z;
  reg_ip : string;
  reg_port : string;
  reg_max_speed : F
}.

(** What [register_drone] answers: [{"drone_id", "status", "details"}] read
    back from the row, or the [HTTPException] with status 500 it raises when
    the insert fails. *)
Inductive Registration :=
| Registered (drone_id : Z) (status : string)
    (name : string) (owner_id : Z) (ip port : string) (max_speed : F)
| RegistrationFailed (status_code : Z).

(** [Drone(name=..., owner_id=..., ip=..., port=..., max_speed=...)] once
    inserted: the other columns at their defaults, the nullable ones empty. *)
Definition new_row (now : Timestamp) (drone : DroneRegisterRequest) : Drone :=
  {| name := reg_name drone;
     owner_id := reg_owner_id drone;
     current_lat := None;
     current_lng := None;
     current_altitude := None;
     current_status := "stopped";
     battery_level := 100;
     max_speed := reg_max_speed drone;
     created_at := now;
     updated_at := now;
     ip := reg_ip drone;
     port := reg_port drone |}.

(** [POST /api/drones/register].  [assigned] is the primary key the database
    gives the row at [commit]; a key the table already holds makes the commit
    raise, which the handler rolls back and turns into the 500. *)
Definition register_drone (assigned : Z) (now : Timestamp)
    (drone : DroneRegisterRequest) (w : World) : World * Registration :=
  match drones w !! assigned with
  | None =>
      let db_drone := new_row now drone in
      (mkWorld (<[assigned := db_drone]> (drones w)) (wire w),
       Registered assigned "drone registered" (name db_drone) (owner_id db_drone)
         (ip db_drone) (port db_drone) (max_speed db_drone))
  | Some _ => (w, RegistrationFailed 500)
  end.

(** *** The telemetry loop *)

(** An entry of [telemetry_data]: what was fetched, or the marker
    [{"error": "Failed to fetch telemetry"}]. *)
Inductive TelemetryEntry :=
| Telemetry (name : string) (status : Json)
    (current_lat current_lng current_altitude : option F)
    (battery_level : Z) (max_speed : F)
| FetchFailed.

(** [float(x) if x else None] on a nullable numeric column. *)
Definition float_if_set (x : option F) : option F :=
  match x with
  | Some v => if truthy v then Some v else None
  | None => None
  end.

(** The status query of the loop, [client.get(f"http://{ip}:{port}/api/drone/status")]. *)
Definition status_request (drone : Drone) : Request :=
  mkRequest GET ("http://" ++ ip drone ++ ":" ++ port drone ++ "/api/drone/status") None.

(** The body of the [for drone in drones] loop: the entry stored under
    [drone.id].  [httpx.HTTPError] covers both ways a call fails. *)
Definition fetch_entry (drone : Drone) : TelemetryEntry :=
  match net (status_request drone) with
  | Responded body =>
      Telemetry (name drone) body
        (float_if_set (current_lat drone))
        (float_if_set (current_lng drone))
        (float_if_set (current_altitude drone))
        (battery_level drone) (max_speed drone)
  | HTTPStatusError _ | RequestError _ => FetchFailed
  end.

(** One pass of [for drone in drones] over the rows [db.query(Drone).all()]
    returned, from an empty [telemetry_data]; each row makes one call. *)
Definition collect_rows (rows : list (Z * Drone))
    (calls : list Request) : list Request * gmap Z TelemetryEntry :=
  foldl (fun acc row =>
           (acc.1 ++ [status_request row.2], <[row.1 := fetch_entry row.2]> acc.2))
        (calls, ∅) rows.

Definition collect_telemetry (w : World) : World * gmap Z TelemetryEntry :=
  let r := collect_rows (map_to_list (drones w)) (wire w) in
  (mkWorld (drones w) r.1, r.2).

(** Whether [ws.send_json] goes through, per client. *)
Variable accepts : WebSocket -> bool.

(** [list.remove(x)]: drops the first occurrence, ValueError ([None]) when
    there is none. *)
Fixpoint list_remove (x : WebSocket) (l : list WebSocket) : option (list WebSocket) :=
  match l with
  | [] => None
  | y :: l' =>
      if Nat.eqb y x then Some l'
      else match list_remove x l' with
           | Some r => Some (y :: r)
           | None => None
           end
  end.

(** How a broadcast pass ends: the list of connections it leaves and the
    clients the snapshot was delivered to, in order; or the ValueError of a
    failed [remove]; the last case is the recursion running out of [fuel]. *)
Inductive Broadcast :=
| Finished (websocket_connections delivered : list WebSocket)
| ValueError
| OutOfFuel.

(** [for ws in websocket_connections: try: send_json except: remove(ws)].
    The [for] reads the list by position [i], and the list it reads is the one
    [remove] shortens. *)
Fixpoint broadcast_from (fuel i : nat)
    (websocket_connections delivered : list WebSocket) : Broadcast :=
  match websocket_connections !! i with
  | None => Finished websocket_connections delivered
  | Some ws =>
      match fuel with
      | O => OutOfFuel
      | S fuel' =>
          if accepts ws then
            broadcast_from fuel' (S i) websocket_connections (delivered ++ [ws])
          else
            match list_remove ws websocket_connections with
            | Some rest => broadcast_from fuel' (S i) rest delivered
            | None => ValueError
            end
      end
  end.

Definition broadcast (websocket_connections : list WebSocket) : Broadcast :=
  broadcast_from (length websocket_connections) 0 websocket_connections [].

(** [n] passes in a row, as the [while True] loop makes them, each over the
    list the one before left: how the last one ends. *)
Fixpoint passes (n : nat) (websocket_connections : list WebSocket) : Broadcast :=
  match n with
  | O => Finished websocket_connections []
  | S n' =>
      match broadcast websocket_connections with
      | Finished rest delivered =>
          match n' with
          | O => Finished rest delivered
          | S _ => passes n' rest
          end
      | ValueError => ValueError
      | OutOfFuel => OutOfFuel
      end
  end.

(** *** What the statements are written with *)

(** The call a route makes on the vehicle [drone]. *)
Definition request_of (cmd : Command) (drone : Drone) : Request :=
  let base := ("http://" ++ ip drone ++ ":" ++ port drone)%string in
  match cmd with
  | Takeoff => mkRequest POST (base ++ "/api/drone/takeoff") None
  | Land => mkRequest POST (base ++ "/api/drone/land") None
  | Move mv => mkRequest POST (base ++ "/api/drone/move") (Some (MoveRequest_dict mv))
  | MoveTo mv =>
      mkRequest POST (base ++ "/api/drone/move_to") (Some (MoveRequest_dict mv))
  | Status => mkRequest GET (base ++ "/api/drone/status") None
  end.

(** The columns a route writes once its call has returned. *)
Definition cache_update (cmd : Command) (now : Timestamp) : Drone -> Drone :=
  match cmd with
  | Takeoff => set_status "flying" now
  | Land => set_status "stopped" now
  | Move mv | MoveTo mv => set_position mv now
  | Status => fun d => d
  end.

(** The ["status"] string of a route's envelope. *)
Definition sent_label (cmd : Command) : string :=
  match cmd with
  | Takeoff => "takeoff initiated"
  | Land => "landing initiated"
  | Move _ => "move command sent"
  | MoveTo _ => "move_to command sent"
  | Status => ""
  end.

(** What a route does for a registered vehicle, by how its call ends. *)
Definition relay_registered (now : Timestamp) (drone_id : Z) (cmd : Command)
    (drone : Drone) (w : World) : World * Result Envelope :=
  let request := request_of cmd drone in
  let w' := mkWorld (drones w) (wire w ++ [request]) in
  match net request with
  | Responded body =>
      match cmd with
      | Status => (w', Returned (StatusOf drone_id body))
      | _ => (update_drone (cache_update cmd now) drone_id w',
              Returned (CommandSent drone_id (sent_label cmd) body))
      end
  | HTTPStatusError status_code =>
      (w', Raised (mkHTTPException status_code (UpstreamStatus status_code request)))
  | RequestError why =>
      (w', Raised (mkHTTPException 500 (CommunicationFailed drone_id why)))
  end.

(** The vehicle answers the status query. *)
Definition reachable (drone : Drone) : bool :=
  match net (status_request drone) with
  | Responded _ => true
  | HTTPStatusError _ | RequestError _ => false
  end.

Definition is_failed (entry : TelemetryEntry) : bool :=
  match entry with
  | FetchFailed => true
  | Telemetry _ _ _ _ _ _ _ => false
  end.

(** What writes the table or uses the network: a registration, a relay
    command, a round of the telemetry loop. *)
Inductive Event :=
| EvRegister (assigned : Z) (now : Timestamp) (drone : DroneRegisterRequest)
| EvRelay (now : Timestamp) (drone_id : Z) (cmd : Command)
| EvRound.

(** The world an event leaves. *)
Definition after (e : Event) (w : World) : World :=
  match e with
  | EvRegister assigned now drone => (register_drone assigned now drone w).1
  | EvRelay now drone_id cmd => (relay now drone_id cmd w).1
  | EvRound => (collect_telemetry w).1
  end.

(** The world after a history of events, oldest first. *)
Definition history (events : list Event) (w : World) : World :=
  foldl (fun w e => after e w) w events.

(** What a pass over the clients [suffix] not yet read amounts to: the
    clients it keeps and the clients it delivers to.  A client whose push
    fails is dropped, and the client behind it is kept without being sent
    anything. *)
Fixpoint sweep (suffix : list WebSocket) : list WebSocket * list WebSocket :=
  match suffix with
  | [] => ([], [])
  | ws :: rest =>
      if accepts ws then (ws :: (sweep rest).1, ws :: (sweep rest).2)
      else
        match rest with
        | [] => ([], [])
        | next :: rest' => (next :: (sweep rest').1, (sweep rest').2)
        end
  end.

End Model.

Arguments Drone F : clear implicits.
Arguments Json F : clear implicits.
Arguments MoveRequest F : clear implicits.
Arguments Request F : clear implicits.
Arguments Outcome F : clear implicits.
Arguments World F : clear implicits.
Arguments TelemetryEntry F : clear implicits.
Arguments DroneRegisterRequest F : clear implicits.
Arguments Registration F : clear implicits.
Arguments Command F : clear implicits.
Arguments Event F : clear implicits.
Arguments Envelope F : clear implicits.
Arguments HTTPException F : clear implicits.
Arguments Returned {F A} a.
Arguments Raised {F A} e.

(** *** A fleet of three *)

(** A row as [register_drone] creates it. *)
Definition registered (name ip : string) : Drone float :=
  mkDrone name 1%Z None None None "stopped" 100%Z (lit 50) 0%Z 0%Z ip "8001".

Definition fleet : World float :=
  mkWorld (<[1%Z := registered "alpha" "10.0.0.1"]>
           (<[2%Z := registered "bravo" "10.0.0.2"]>
            (<[3%Z := registered "charlie" "10.0.0.3"]> ∅))) [].

(** What a vehicle that is already airborne answers to a takeoff. *)
Definition already_flying : Json float :=
  JObj [("status", JStr "error"); ("message", JStr "Drone is already flying")]%string.

(** Every vehicle answers, and answers with that error report. *)
Definition net_rejecting (r : Request float) : Outcome float :=
  Responded already_flying.

(** Nothing answers. *)
Definition net_down (r : Request float) : Outcome float :=
  RequestError "All connection attempts failed".

(** Only [bravo], at 10.0.0.2, is unreachable. *)
Definition net_bravo_down (r : Request float) : Outcome float :=
  if String.prefix "http://10.0.0.2:" (url r)
  then RequestError "All connection attempts failed"
  else Responded (JObj []).

End Fleet.

(** * Properties *)

(** ** The commands and the flight state, in any arithmetic *)

Section VehicleCommands.
Import Vehicle.
Context {F : Type} `{PyFloat F}.
Implicit Types (drone : DroneState F) (op : Operation F) (ops : list (Operation F)).

Lemma run_snoc ops op drone :
  run (ops ++ [op]) drone = apply_op op (run ops drone).
Proof. unfold run. now rewrite fold_left_app. Qed.

Lemma update_position_flags dlat dlon dalt drone :
  is_flying (update_position dlat dlon dalt drone) = is_flying drone
  /\ moving_to_target (update_position dlat dlon dalt drone) = moving_to_target drone
  /\ target (update_position dlat dlon dalt drone) = target drone.
Proof. unfold update_position. destruct (is_flying drone) eqn:E; simpl; auto. Qed.

Lemma update_movement_flags dt drone :
  is_flying (update_movement dt drone) = is_flying drone
  /\ (moving_to_target (update_movement dt drone) = true ->
      moving_to_target drone = true)
  /\ target (update_movement dt drone) = target drone.
Proof.
  unfold update_movement.
  destruct (is_flying drone) eqn:Efly, (moving_to_target drone) eqn:Emov; simpl;
    try (destruct (flt _ _); simpl); repeat split; auto; congruence.
Qed.

Lemma seeking_wf_step ops op drone :
  seeking_wf ops drone -> seeking_wf (ops ++ [op]) (apply_op op drone).
Proof.
  unfold seeking_wf. intros Hinv.
  assert (Hold : moving_to_target drone = true ->
                 is_flying drone = true /\ OpMoveTo (target drone) ∈ ops ++ [op]).
  { intros Hm. destruct (Hinv Hm) as [Hf Hin]. split; [exact Hf|].
    apply elem_of_app. now left. }
  clear Hinv.
  destruct drone as [fl la lo al sp ba mt tla tlo tal ms].
  destruct op as [a| |[rla rlo ral]|[rla rlo ral]|]; destruct fl, mt;
    cbn in *; unfold update_movement; cbn;
    try (destruct (flt _ _); cbn); intros Hm;
    first
      [ discriminate Hm
      | destruct (Hold Hm) as [Hf Hin];
        first [ discriminate Hf | split; [reflexivity | exact Hin] ]
      | split; [reflexivity|]; apply elem_of_app; right;
        apply list_elem_of_singleton; reflexivity ].
Qed.

Lemma seeking_airborne_step op drone :
  seeking_airborne drone -> seeking_airborne (apply_op op drone).
Proof.
  unfold seeking_airborne. intros Hinv.
  destruct drone as [fl la lo al sp ba mt tla tlo tal ms].
  destruct op as [a| |mv|mv|]; destruct fl, mt;
    cbn in *; unfold update_movement; cbn;
    try (destruct (flt _ _); cbn); intros Hm; try discriminate Hm;
    auto.
Qed.

(** The tick of a drifting drone, in any arithmetic: the constant
    displacement of [simulate_drone]. *)
Lemma drift_step_shape drone :
  is_flying drone = true -> moving_to_target drone = false ->
  simulate_drone_step drone
  = {| is_flying := true;
       latitude := fadd (latitude drone) (lit 0.0001);
       longitude := fadd (longitude drone) (lit 0.0001);
       altitude := fadd (altitude drone) (lit 0);
       speed := fdiv (flat_distance (lit 0.0001) (lit 0.0001) (lit 0)) (lit 0.1);
       battery := fsub (battery drone) (lit 0.01);
       moving_to_target := false;
       target_latitude := target_latitude drone;
       target_longitude := target_longitude drone;
       target_altitude := target_altitude drone;
       movement_speed := movement_speed drone |}.
Proof.
  intros Hf Hm. unfold simulate_drone_step, update_position.
  now rewrite Hf, Hm.
Qed.

(** C6.  Takeoff answers success exactly when the drone is on the ground;
    from the ground it sets [is_flying] and puts the altitude at the requested
    value, touching nothing else; while airborne it answers the structured
    error and returns the state as it was; and whatever the first call did, a
    second call right after it is rejected and changes nothing. *)
Theorem takeoff_only_from_grounded (altitude altitude' : F) drone :
  (status (snd (takeoff altitude drone)) = "success" <-> is_flying drone = false)
  /\ (is_flying drone = false ->
      takeoff altitude drone
      = (airborne_at altitude drone, mkReply "success" (TookOff altitude)))
  /\ (is_flying drone = true ->
      takeoff altitude drone = (drone, mkReply "error" AlreadyFlying))
  /\ takeoff altitude' (fst (takeoff altitude drone))
     = (fst (takeoff altitude drone), mkReply "error" AlreadyFlying).
Proof.
  unfold takeoff, airborne_at.
  destruct (is_flying drone) eqn:Efly; simpl; try rewrite Efly; simpl;
    repeat split; intros; try discriminate; reflexivity.
Qed.

(** C7.  On the ground, [update_position] returns the state it was given,
    whatever the deltas, and the [move] handler answers the error without
    changing the state. *)
Theorem displace_grounded_is_noop (dlat dlon dalt : F) drone :
  is_flying drone = false ->
  update_position dlat dlon dalt drone = drone
  /\ move (mkMoveRequest dlat dlon dalt) drone = (drone, mkReply "error" NotFlying).
Proof.
  intros Hground. unfold move, update_position. now rewrite Hground.
Qed.

(** C8.  [moving_to_target] implies [is_flying]: in the initial state, across
    each of takeoff, land, move, move_to and the tick from any state that
    satisfies it, and hence in every state a history of operations reaches,
    where moreover the goal being sought is the one an accepted [move_to] of
    that history supplied. *)
Theorem seeking_implies_airborne :
  seeking_airborne DroneState_init
  /\ (forall op drone, seeking_airborne drone -> seeking_airborne (apply_op op drone))
  /\ (forall ops, seeking_wf ops (run ops DroneState_init)).
Proof.
  split; [|split].
  - unfold seeking_airborne. simpl. discriminate.
  - exact seeking_airborne_step.
  - intros ops. induction ops as [|op ops IH] using rev_ind.
    + unfold seeking_wf. simpl. discriminate.
    + rewrite run_snoc. now apply seeking_wf_step.
Qed.

End VehicleCommands.

(** ** The tick in exact arithmetic *)

Section ExactArithmetic.
Import Vehicle.
Open Scope R_scope.
Implicit Types drone : DroneState R.

Lemma Rltb_true x y : x < y -> Rltb x y = true.
Proof. unfold Rltb. destruct (Rlt_dec x y); [reflexivity|contradiction]. Qed.


Lemma flat_distance_exact dlat dlon dalt :
  flat_distance dlat dlon dalt
  = sqrt ((dlat * 111000) * (dlat * 111000) + (dlon * 111000) * (dlon * 111000)
          + dalt * dalt).
Proof. unfold flat_distance. cbn. f_equal. lra. Qed.

Lemma flat_distance_nonneg dlat dlon dalt : 0 <= flat_distance dlat dlon dalt.
Proof. rewrite flat_distance_exact. apply sqrt_pos. Qed.


Lemma simulate_drone_step_seeking drone :
  Seeking drone -> simulate_drone_step drone = tick drone.
Proof. intros [Hf Hm]. unfold simulate_drone_step, tick. now rewrite Hf, Hm. Qed.


(** A tick closer than ten centimetres snaps onto the goal. *)
Lemma tick_snap drone :
  Seeking drone -> distance_to_target drone < 0.1 ->
  snapped_to (target drone) (tick drone) /\ distance_to_target (tick drone) = 0.
Proof.
  intros [Hf Hm] Hd.
  unfold tick, update_movement. rewrite Hf, Hm. cbn [negb orb].
  fold (distance_to_target drone).
  cbn [flt lit PyFloat_R]. rewrite Rltb_true by exact Hd.
  unfold snapped_to, distance_to_target. cbn. repeat split; try lra.
  match goal with |- sqrt ?x = 0 => replace x with 0 by ring end.
  apply sqrt_0.
Qed.













(** *** Drifting: airborne with no goal *)

Lemma drift_step drone :
  is_flying drone = true -> moving_to_target drone = false ->
  simulate_drone_step drone = update_position (lit 0.0001) (lit 0.0001) (lit 0) drone.
Proof. intros Hf Hm. unfold simulate_drone_step. now rewrite Hf, Hm. Qed.

Lemma drift_speed_exact :
  fdiv (flat_distance (lit 0.0001) (lit 0.0001) (lit 0)) (lit 0.1)
  = sqrt ((0.0001 * 111000) ^ 2 + (0.0001 * 111000) ^ 2) / 0.1.
Proof. rewrite flat_distance_exact. cbn. do 2 f_equal. lra. Qed.

Lemma drift_speed_bounds :
  156.977 < sqrt ((0.0001 * 111000) ^ 2 + (0.0001 * 111000) ^ 2) / 0.1 < 156.978.
Proof.
  replace ((0.0001 * 111000) ^ 2 + (0.0001 * 111000) ^ 2) with 246.42 by lra.
  assert (Hlo : 15.6977 < sqrt 246.42).
  { rewrite <- (sqrt_square 15.6977) at 1 by lra. apply sqrt_lt_1_alt. lra. }
  assert (Hhi : sqrt 246.42 < 15.6978).
  { rewrite <- (sqrt_square 15.6978) at 1 by lra. apply sqrt_lt_1_alt. lra. }
  lra.
Qed.

Lemma drift_battery n : forall drone,
  is_flying drone = true -> moving_to_target drone = false ->
  is_flying (Nat.iter n simulate_drone_step drone) = true
  /\ moving_to_target (Nat.iter n simulate_drone_step drone) = false
  /\ battery (Nat.iter n simulate_drone_step drone) = battery drone - INR n * 0.01.
Proof.
  induction n as [|n IH]; intros drone Hf Hm.
  - change (Nat.iter 0 simulate_drone_step drone) with drone. cbn [INR].
    repeat split; auto. lra.
  - destruct (IH drone Hf Hm) as (Hf' & Hm' & Hb').
    change (Nat.iter (S n) simulate_drone_step drone)
      with (simulate_drone_step (Nat.iter n simulate_drone_step drone)).
    rewrite (drift_step _ Hf' Hm'), S_INR.
    destruct (update_position_flags (lit 0.0001) (lit 0.0001) (lit 0)
                (Nat.iter n simulate_drone_step drone)) as (-> & -> & _).
    repeat split; auto.
    unfold update_position. rewrite Hf'. cbn. rewrite Hb'. lra.
Qed.

(** C10.  A tick of an airborne drone with no goal adds exactly 0.0001 to the
    latitude and to the longitude, keeps the altitude, takes exactly 0.01 off
    the battery whatever its level (so [n] such ticks take [n * 0.01] off, below
    zero included), and reports the speed
    [sqrt ((0.0001 * 111000)^2 + (0.0001 * 111000)^2) / 0.1], between 156.977
    and 156.978 m/s, above the cruise speed the drone is created with. *)
Theorem drift_tick drone :
  is_flying drone = true -> moving_to_target drone = false ->
  latitude (simulate_drone_step drone) = latitude drone + 0.0001
  /\ longitude (simulate_drone_step drone) = longitude drone + 0.0001
  /\ altitude (simulate_drone_step drone) = altitude drone
  /\ battery (simulate_drone_step drone) = battery drone - 0.01
  /\ (forall n, battery (Nat.iter n simulate_drone_step drone)
               = battery drone - INR n * 0.01)
  /\ speed (simulate_drone_step drone)
     = sqrt ((0.0001 * 111000) ^ 2 + (0.0001 * 111000) ^ 2) / 0.1
  /\ 156.977 < speed (simulate_drone_step drone) < 156.978
  /\ movement_speed (F := R) DroneState_init < speed (simulate_drone_step drone).
Proof.
  intros Hf Hm.
  assert (Hsp : speed (simulate_drone_step drone)
                = sqrt ((0.0001 * 111000) ^ 2 + (0.0001 * 111000) ^ 2) / 0.1).
  { rewrite (drift_step _ Hf Hm). unfold update_position. rewrite Hf.
    cbn [speed]. apply drift_speed_exact. }
  pose proof drift_speed_bounds as Hbounds.
  rewrite (drift_step _ Hf Hm) in *.
  unfold update_position in *. rewrite Hf in *. cbn -[flat_distance] in *.
  repeat split; try lra.
  - intros n. now destruct (drift_battery n drone Hf Hm) as (_ & _ & ->).
Qed.

(** Right after a takeoff to 10 m the drone drifts: [drift_tick] applies. *)
Lemma drift_tick_after_takeoff :
  (is_flying hovering_10m = true /\ moving_to_target hovering_10m = false)
  /\ latitude (simulate_drone_step hovering_10m) = latitude hovering_10m + 0.0001
  /\ longitude (simulate_drone_step hovering_10m) = longitude hovering_10m + 0.0001
  /\ altitude (simulate_drone_step hovering_10m) = altitude hovering_10m
  /\ battery (simulate_drone_step hovering_10m) = battery hovering_10m - 0.01
  /\ (forall n, battery (Nat.iter n simulate_drone_step hovering_10m)
               = battery hovering_10m - INR n * 0.01)
  /\ speed (simulate_drone_step hovering_10m)
     = sqrt ((0.0001 * 111000) ^ 2 + (0.0001 * 111000) ^ 2) / 0.1
  /\ 156.977 < speed (simulate_drone_step hovering_10m) < 156.978
  /\ movement_speed (F := R) DroneState_init < speed (simulate_drone_step hovering_10m).
Proof.
  split; [split; reflexivity|].
  apply (drift_tick hovering_10m); reflexivity.
Defined.

End ExactArithmetic.

(** ** The same definitions in binary64 *)

Section Binary64.
Import Vehicle.

(** Twenty ticks put the drone on the goal, still seeking at cruise speed. *)
Example north_10m_b64_tick20 :
  latitude (Nat.iter 20 (update_movement (lit 0.1)) north_10m_b64)
  = target_latitude north_10m_b64
  /\ speed (Nat.iter 20 (update_movement (lit 0.1)) north_10m_b64) = lit 5
  /\ moving_to_target (Nat.iter 20 (update_movement (lit 0.1)) north_10m_b64) = true.
Proof. vm_compute. repeat split. Qed.

(** The twenty-first snaps. *)
Example north_10m_b64_tick21 :
  latitude (Nat.iter 21 (update_movement (lit 0.1)) north_10m_b64)
  = target_latitude north_10m_b64
  /\ speed (Nat.iter 21 (update_movement (lit 0.1)) north_10m_b64) = lit 0
  /\ moving_to_target (Nat.iter 21 (update_movement (lit 0.1)) north_10m_b64) = false.
Proof. vm_compute. repeat split. Qed.

(** The drift speed on doubles lies in the same bracket. *)
Example drift_speed_b64 :
  flt (lit 156.977)
      (speed (simulate_drone_step (fst (takeoff (lit 10) DroneState_init)))) = true
  /\ flt (speed (simulate_drone_step (fst (takeoff (lit 10) DroneState_init))))
         (lit 156.978) = true.
Proof. vm_compute. split; reflexivity. Qed.

(** On the longest leg within the limits the doubles agree with the exact
    reading: the distance is finite, below 50 000 km, and the tick shortens
    it and reports the cruise speed. *)
Example far_corner_b64_tick :
  flt (distance_to_target far_corner_b64) (lit 50000000) = true
  /\ flt (distance_to_target (update_movement (lit 0.1) far_corner_b64))
         (distance_to_target far_corner_b64) = true
  /\ speed (update_movement (lit 0.1) far_corner_b64) = lit 5
  /\ moving_to_target (update_movement (lit 0.1) far_corner_b64) = true.
Proof. vm_compute. repeat split. Qed.

(** Rounding is where the two readings part.  Airborne at [2^54] m and sent
    to [10^17] m, the half-metre step is below half the spacing of doubles at
    that altitude and is absorbed: the tick leaves the position where it was,
    so what is proved above of exact arithmetic holds of the doubles only while
    a step is not lost to rounding. *)
Example stalled_b64_tick :
  altitude (update_movement (lit 0.1) stalled_b64) = altitude stalled_b64
  /\ flt (distance_to_target (update_movement (lit 0.1) stalled_b64))
         (distance_to_target stalled_b64) = false
  /\ moving_to_target (update_movement (lit 0.1) stalled_b64) = true.
Proof. vm_compute. repeat split. Qed.

(** [takeoff_only_from_grounded] at the initial state: the first call takes
    off, the second is rejected. *)
Lemma takeoff_twice_from_ground :
  takeoff (F := float) (lit 10) DroneState_init
  = (airborne_at (lit 10) DroneState_init, mkReply "success" (TookOff (lit 10)))
  /\ takeoff (lit 20) (fst (takeoff (F := float) (lit 10) DroneState_init))
     = (fst (takeoff (lit 10) DroneState_init), mkReply "error" AlreadyFlying).
Proof.
  destruct (takeoff_only_from_grounded (F := float) (lit 10) (lit 20) DroneState_init)
    as (_ & Hground & _ & Hagain).
  split; [apply Hground; reflexivity | exact Hagain].
Defined.

(** [displace_grounded_is_noop] at the initial state, which is on the ground. *)
Lemma displace_grounded_initial :
  is_flying (F := float) DroneState_init = false
  /\ update_position (lit 0.5) (lit 0.25) (lit 3) DroneState_init
     = DroneState_init (F := float)
  /\ move (mkMoveRequest (lit 0.5) (lit 0.25) (lit 3)) DroneState_init
     = (DroneState_init (F := float), mkReply "error" NotFlying).
Proof.
  split; [reflexivity|].
  apply (displace_grounded_is_noop (F := float)). reflexivity.
Defined.

End Binary64.

(** ** The relay *)

Section Relay.
Import Fleet.
Context {F : Type} `{PyFloat F} (net : Request F -> Outcome F).
Implicit Types (w : World F) (drone : Drone F) (cmd : Command F).
Implicit Types (now : Timestamp) (drone_id : Z).

Lemma send_to_drone_unknown drone_id endpoint method data w :
  drones w !! drone_id = None ->
  send_to_drone net drone_id endpoint method data w
  = (w, Raised (mkHTTPException 404 (DroneNotFound drone_id))).
Proof. intros Hnone. unfold send_to_drone, get_drone_url. now rewrite Hnone. Qed.

Lemma relay_known now drone_id cmd drone w :
  drones w !! drone_id = Some drone ->
  relay net now drone_id cmd w = relay_registered net now drone_id cmd drone w.
Proof.
  intros Hsome.
  destruct cmd; unfold relay, relay_registered, takeoff_drone, land_drone,
    move_drone, move_to_drone, get_drone_status, on_result, send_to_drone,
    get_drone_url, request_of; rewrite Hsome; cbn [cache_update sent_label];
    match goal with |- context [net ?r] => destruct (net r) end; reflexivity.
Qed.

(** C9.  A relay command for an id the table does not hold, whichever of the
    five routes it came through, raises the 404 and leaves the world as it was:
    the table untouched and no call made on the network. *)
Theorem relay_unknown_drone now drone_id cmd w :
  drones w !! drone_id = None ->
  relay net now drone_id cmd w
  = (w, Raised (mkHTTPException 404 (DroneNotFound drone_id))).
Proof.
  intros Hnone.
  destruct cmd; unfold relay, takeoff_drone, land_drone, move_drone,
    move_to_drone, get_drone_status, on_result;
    now rewrite send_to_drone_unknown.
Qed.

(** C3.  When the call to a registered vehicle fails, by an error status or
    by no response at all, the route makes that one call, raises (with the
    vehicle's status code, or 500), and returns the table as it was. *)
Theorem relay_failed_call_keeps_registry now drone_id cmd drone w :
  drones w !! drone_id = Some drone ->
  (forall status_code,
      net (request_of cmd drone) = HTTPStatusError status_code ->
      relay net now drone_id cmd w
      = (mkWorld (drones w) (wire w ++ [request_of cmd drone]),
         Raised (mkHTTPException status_code
                   (UpstreamStatus status_code (request_of cmd drone)))))
  /\ (forall why,
      net (request_of cmd drone) = RequestError why ->
      relay net now drone_id cmd w
      = (mkWorld (drones w) (wire w ++ [request_of cmd drone]),
         Raised (mkHTTPException 500 (CommunicationFailed drone_id why)))).
Proof.
  intros Hsome. rewrite (relay_known _ _ _ _ _ Hsome). unfold relay_registered.
  split; intros ? ->; reflexivity.
Qed.

(** C2, as the code has it.  The relay never reads the body of a reply.  When
    the call of takeoff, land, move or move_to comes back with a response that
    passes [raise_for_status], whatever its body says (an error report of the
    vehicle included), the route writes its columns and returns its envelope
    with the body inside; only an error status of the response is raised, with
    that status code, and then the table is not written. *)
Theorem relay_ignores_reply_body now drone_id cmd drone w :
  drones w !! drone_id = Some drone ->
  cmd <> Status ->
  (forall body,
      net (request_of cmd drone) = Responded body ->
      relay net now drone_id cmd w
      = (mkWorld (alter (cache_update cmd now) drone_id (drones w))
                 (wire w ++ [request_of cmd drone]),
         Returned (CommandSent drone_id (sent_label cmd) body)))
  /\ (forall status_code,
      net (request_of cmd drone) = HTTPStatusError status_code ->
      exists detail,
        relay net now drone_id cmd w
        = (mkWorld (drones w) (wire w ++ [request_of cmd drone]),
           Raised (mkHTTPException status_code detail))).
Proof.
  intros Hsome Hcmd. rewrite (relay_known _ _ _ _ _ Hsome). unfold relay_registered.
  split.
  - intros body ->. destruct cmd; try reflexivity. now destruct Hcmd.
  - intros status_code ->. eexists. reflexivity.
Qed.

End Relay.

(** ** The aggregation round *)

Section Aggregation.
Import Fleet.
Context {F : Type} `{PyFloat F} (net : Request F -> Outcome F).
Implicit Types (w : World F) (drone : Drone F).
Implicit Types (rows : list (Z * Drone F)) (calls : list (Request F)).

Lemma is_failed_fetch_entry drone :
  is_failed (fetch_entry net drone) = negb (reachable net drone).
Proof.
  unfold fetch_entry, reachable. now destruct (net (status_request drone)).
Qed.

Lemma collect_rows_snoc rows row calls :
  collect_rows net (rows ++ [row]) calls
  = ((collect_rows net rows calls).1 ++ [status_request row.2],
     <[row.1 := fetch_entry net row.2]> (collect_rows net rows calls).2).
Proof. unfold collect_rows. now rewrite foldl_snoc. Qed.

(** With one row per id, the pass stores under each id the entry of its row,
    and calls each row's vehicle once, in the order of the rows. *)
Lemma collect_rows_spec rows calls :
  NoDup rows.*1 ->
  collect_rows net rows calls
  = (calls ++ ((status_request ∘ snd) <$> rows),
     fetch_entry net <$> (list_to_map rows : gmap Z (Drone F))).
Proof.
  induction rows as [|[drone_id drone] rows IH] using rev_ind; intros Hnodup.
  - cbn. now rewrite app_nil_r, fmap_empty.
  - rewrite fmap_app in Hnodup. apply NoDup_app in Hnodup as (Hrows & Hfresh & _).
    rewrite collect_rows_snoc, (IH Hrows). cbn [fst snd].
    rewrite list_to_map_snoc, fmap_insert, fmap_app, app_assoc; [reflexivity|].
    intros Hin. apply (Hfresh _ Hin). cbn. apply list_elem_of_here.
Qed.

Lemma collect_telemetry_spec w :
  collect_telemetry net w
  = (mkWorld (drones w)
       (wire w ++ ((status_request ∘ snd) <$> map_to_list (drones w))),
     fetch_entry net <$> drones w).
Proof.
  unfold collect_telemetry.
  rewrite collect_rows_spec by apply NoDup_fst_map_to_list.
  cbn [fst snd]. now rewrite list_to_map_to_list.
Qed.

(** C5.  The mapping a round assembles has one entry per registered vehicle:
    under each id the telemetry fetched from that vehicle when it answers, and
    the error marker when it does not.  So it has as many entries as there are
    vehicles, as many markers as unreachable vehicles and as many telemetry
    entries as reachable ones. *)
Theorem telemetry_round_covers_fleet w :
  size (collect_telemetry net w).2 = size (drones w)
  /\ (forall drone_id, (collect_telemetry net w).2 !! drone_id
                       = fetch_entry net <$> drones w !! drone_id)
  /\ (forall drone, is_failed (fetch_entry net drone) = negb (reachable net drone))
  /\ size (filter (fun row => is_failed row.2 = true) (collect_telemetry net w).2)
     = size (filter (fun row => reachable net row.2 = false) (drones w))
  /\ size (filter (fun row => is_failed row.2 = false) (collect_telemetry net w).2)
     = size (filter (fun row => reachable net row.2 = true) (drones w)).
Proof.
  rewrite collect_telemetry_spec. cbn [snd].
  split; [apply map_size_fmap|].
  split; [intros; apply lookup_fmap|].
  split; [apply is_failed_fetch_entry|].
  split.
  - rewrite map_filter_fmap, map_size_fmap. f_equal.
    apply map_filter_ext. intros i d _. cbn.
    rewrite is_failed_fetch_entry. now destruct (reachable net d).
  - rewrite map_filter_fmap, map_size_fmap. f_equal.
    apply map_filter_ext. intros i d _. cbn.
    rewrite is_failed_fetch_entry. now destruct (reachable net d).
Qed.

End Aggregation.

(** ** The broadcast *)

Section Broadcasting.
Import Fleet.
Variable accepts : WebSocket -> bool.
Implicit Types (ws : WebSocket) (conns pre suffix delivered : list WebSocket).

Lemma list_remove_elem ws conns :
  ws ∈ conns ->
  exists rest, list_remove ws conns = Some rest /\ length conns = S (length rest).
Proof.
  induction conns as [|y l IH]; intros Hin.
  - now apply elem_of_nil in Hin.
  - cbn. destruct (Nat.eqb y ws) eqn:Heq; [eauto|].
    apply Nat.eqb_neq in Heq.
    apply elem_of_cons in Hin as [->|Hin]; [congruence|].
    destruct (IH Hin) as (rest & -> & Hlen). exists (y :: rest).
    split; [reflexivity|]. cbn. now rewrite Hlen.
Qed.

Lemma list_remove_middle ws pre suffix :
  ws ∉ pre -> list_remove ws (pre ++ ws :: suffix) = Some (pre ++ suffix).
Proof.
  induction pre as [|y pre IH]; intros Hfresh; cbn.
  - now rewrite Nat.eqb_refl.
  - apply not_elem_of_cons in Hfresh as [Hne Hfresh].
    destruct (Nat.eqb y ws) eqn:Heq.
    + apply Nat.eqb_eq in Heq. congruence.
    + now rewrite (IH Hfresh).
Qed.

(** A pass always finishes: [remove] finds the client it is given, and the
    fuel [broadcast] starts with is enough. *)
Lemma broadcast_from_finishes fuel : forall i conns delivered,
  length conns <= i + fuel ->
  exists conns' delivered',
    broadcast_from accepts fuel i conns delivered = Finished conns' delivered'.
Proof.
  induction fuel as [|fuel IH]; intros i conns delivered Hlen; cbn;
    destruct (conns !! i) as [ws|] eqn:Hws; eauto.
  - apply lookup_lt_Some in Hws. lia.
  - destruct (accepts ws).
    + apply IH. lia.
    + destruct (list_remove_elem ws conns) as (rest & -> & Hrest).
      { eapply list_elem_of_lookup_2. exact Hws. }
      apply IH. lia.
Qed.

Lemma broadcast_finishes conns :
  exists conns' delivered', broadcast accepts conns = Finished conns' delivered'.
Proof. apply broadcast_from_finishes. lia. Qed.

(** With the clients before position [length pre] already read and those of
    [suffix] still to read, the pass ends as [sweep] says. *)
Lemma broadcast_from_sweep fuel : forall pre suffix delivered,
  NoDup (pre ++ suffix) -> length suffix <= fuel ->
  broadcast_from accepts fuel (length pre) (pre ++ suffix) delivered
  = Finished (pre ++ (sweep accepts suffix).1)
             (delivered ++ (sweep accepts suffix).2).
Proof.
  induction fuel as [|fuel IH]; intros pre suffix delivered Hnodup Hlen.
  - destruct suffix as [|ws rest]; [|cbn in Hlen; lia].
    cbn. rewrite lookup_ge_None_2 by (rewrite length_app; cbn; lia).
    now rewrite !app_nil_r.
  - destruct suffix as [|ws rest].
    { cbn. rewrite lookup_ge_None_2 by (rewrite length_app; cbn; lia).
      now rewrite !app_nil_r. }
    cbn [broadcast_from]. rewrite list_lookup_middle by reflexivity.
    cbn [sweep]. destruct (accepts ws) eqn:Hacc.
    + replace (S (length pre)) with (length (pre ++ [ws]))
        by (rewrite length_app; cbn; lia).
      rewrite (cons_middle ws pre rest), app_assoc.
      rewrite IH.
      * cbn [fst snd]. now rewrite <- !app_assoc.
      * now rewrite <- app_assoc.
      * cbn in Hlen. lia.
    + apply NoDup_app in Hnodup as (Hpre & Hdisj & Hsuf).
      apply NoDup_cons in Hsuf as (Hws & Hrest).
      rewrite list_remove_middle
        by (intros Hin; apply (Hdisj _ Hin); apply list_elem_of_here).
      destruct rest as [|next rest'].
      * destruct fuel; cbn;
          rewrite lookup_ge_None_2 by (rewrite length_app; cbn; lia);
          now rewrite !app_nil_r.
      * replace (S (length pre)) with (length (pre ++ [next]))
          by (rewrite length_app; cbn; lia).
        rewrite (cons_middle next pre rest'), app_assoc.
        rewrite IH.
        -- cbn [fst snd]. now rewrite <- !app_assoc.
        -- rewrite <- app_assoc. cbn. apply NoDup_app. split; [exact Hpre|].
           split; [|exact Hrest].
           intros x Hx Hin. apply (Hdisj x Hx). now apply list_elem_of_further.
        -- cbn in Hlen. lia.
Qed.

(** On a list of distinct clients, [broadcast] is [sweep]. *)
Lemma broadcast_sweep conns :
  NoDup conns ->
  broadcast accepts conns
  = Finished (sweep accepts conns).1 (sweep accepts conns).2.
Proof.
  intros Hnodup. unfold broadcast.
  exact (broadcast_from_sweep (length conns) [] conns [] Hnodup (le_n _)).
Qed.

(** [sweep] keeps, and delivers to, clients of the list only. *)
Lemma sweep_elem n : forall suffix ws,
  length suffix <= n ->
  ws ∈ (sweep accepts suffix).1 ++ (sweep accepts suffix).2 -> ws ∈ suffix.
Proof.
  induction n as [|n IH]; intros suffix ws Hlen Hin.
  - destruct suffix; [cbn in Hin; now apply elem_of_nil in Hin | cbn in Hlen; lia].
  - destruct suffix as [|x rest]; [cbn in Hin; now apply elem_of_nil in Hin|].
    cbn [sweep] in Hin. cbn in Hlen. destruct (accepts x).
    + cbn [fst snd] in Hin.
      assert (Hcase : ws = x
                      \/ ws ∈ (sweep accepts rest).1 ++ (sweep accepts rest).2).
      { rewrite elem_of_app, !elem_of_cons in Hin. rewrite elem_of_app. tauto. }
      destruct Hcase as [->|Hrest]; [apply list_elem_of_here|].
      apply list_elem_of_further. apply IH; [lia|exact Hrest].
    + destruct rest as [|next rest']; [cbn in Hin; now apply elem_of_nil in Hin|].
      cbn [fst snd] in Hin. cbn in Hlen.
      assert (Hcase : ws = next
                      \/ ws ∈ (sweep accepts rest').1 ++ (sweep accepts rest').2).
      { rewrite elem_of_app, elem_of_cons in Hin. rewrite elem_of_app. tauto. }
      apply list_elem_of_further.
      destruct Hcase as [->|Hrest]; [apply list_elem_of_here|].
      apply list_elem_of_further. apply IH; [lia|exact Hrest].
Qed.

Lemma sweep_accepted_prefix pre suffix :
  (forall x, x ∈ pre -> accepts x = true) ->
  sweep accepts (pre ++ suffix)
  = (pre ++ (sweep accepts suffix).1, pre ++ (sweep accepts suffix).2).
Proof.
  induction pre as [|p pre IH]; intros Hpre.
  - cbn. now destruct (sweep accepts suffix).
  - cbn [app sweep]. rewrite (Hpre p) by apply list_elem_of_here.
    rewrite IH by (intros x Hx; apply Hpre; now apply list_elem_of_further).
    reflexivity.
Qed.

(** X20.  The pass, in general: among distinct clients, the first failed push
    drops its client [ws], and the client [next] right behind it stays
    connected and is sent nothing. *)
Lemma broadcast_skips_next pre ws next rest :
  NoDup (pre ++ ws :: next :: rest) ->
  (forall x, x ∈ pre -> accepts x = true) ->
  accepts ws = false ->
  exists conns' delivered',
    broadcast accepts (pre ++ ws :: next :: rest) = Finished conns' delivered'
    /\ (ws ∉ conns') /\ next ∈ conns' /\ (next ∉ delivered').
Proof.
  intros Hnodup Hpre Hfail.
  rewrite broadcast_sweep by exact Hnodup.
  rewrite sweep_accepted_prefix by exact Hpre.
  cbn [sweep fst snd]. rewrite Hfail. cbn [fst snd].
  do 2 eexists. split; [reflexivity|].
  apply NoDup_app in Hnodup as (_ & Hdisj & Htail).
  apply NoDup_cons in Htail as (Hws & Htail).
  apply NoDup_cons in Htail as (Hnext & _).
  assert (Hsub : forall x, x ∈ (sweep accepts rest).1 ++ (sweep accepts rest).2 ->
                           x ∈ rest).
  { intros x. apply (sweep_elem (length rest)). lia. }
  split; [|split].
  - rewrite elem_of_app, elem_of_cons. intros [Hin|[Heq|Hin]].
    + apply (Hdisj _ Hin). apply list_elem_of_here.
    + apply Hws. subst. apply list_elem_of_here.
    + apply Hws. apply list_elem_of_further. apply Hsub, elem_of_app. now left.
  - apply elem_of_app. right. apply list_elem_of_here.
  - rewrite elem_of_app. intros [Hin|Hin].
    + apply (Hdisj _ Hin). apply list_elem_of_further, list_elem_of_here.
    + apply Hnext. apply Hsub, elem_of_app. now right.
Qed.

End Broadcasting.

(** ** A fleet of three *)

Section ThreeDrones.
Import Fleet.
Open Scope Z_scope.

(** [relay_unknown_drone] for id 4, which [fleet] does not hold. *)
Lemma relay_unknown_drone_4 :
  drones fleet !! 4 = None
  /\ relay net_rejecting 7 4 Takeoff fleet
     = (fleet, Raised (mkHTTPException 404 (DroneNotFound 4))).
Proof.
  split; [reflexivity|].
  apply (relay_unknown_drone net_rejecting 7 4 Takeoff fleet). reflexivity.
Defined.

(** [relay_failed_call_keeps_registry] for a move sent to [alpha] while
    nothing answers. *)
Lemma relay_move_while_down :
  drones fleet !! 1 = Some (registered "alpha" "10.0.0.1")
  /\ drones (relay net_down 7 1 (Move (mkMoveRequest (lit 2) (lit 1) (lit 5))) fleet).1
     = drones fleet
  /\ (relay net_down 7 1 (Move (mkMoveRequest (lit 2) (lit 1) (lit 5))) fleet).2
     = Raised (mkHTTPException 500
                 (CommunicationFailed 1 "All connection attempts failed")).
Proof.
  split; [reflexivity|].
  destruct (relay_failed_call_keeps_registry net_down 7 1
              (Move (mkMoveRequest (lit 2) (lit 1) (lit 5)))
              (registered "alpha" "10.0.0.1") fleet eq_refl) as [_ Hdown].
  rewrite (Hdown "All connection attempts failed" eq_refl). split; reflexivity.
Defined.

(** [relay_ignores_reply_body] for a takeoff that [alpha] rejects. *)
Lemma relay_takeoff_rejected :
  drones fleet !! 1 = Some (registered "alpha" "10.0.0.1")
  /\ (relay net_rejecting 7 1 Takeoff fleet).2
     = Returned (CommandSent 1 "takeoff initiated" already_flying)
  /\ drones (relay net_rejecting 7 1 Takeoff fleet).1
     = alter (set_status "flying" 7) 1 (drones fleet).
Proof.
  split; [reflexivity|].
  destruct (relay_ignores_reply_body net_rejecting 7 1 Takeoff
              (registered "alpha" "10.0.0.1") fleet eq_refl) as [Hbody _];
    [discriminate|].
  rewrite (Hbody already_flying eq_refl). split; reflexivity.
Defined.

(** C2, as the spec words it, fails on that input.  The vehicle replies
    [{"status": "error"}] to the takeoff; the relay raises nothing, returns
    ["takeoff initiated"], and the cached row of the vehicle, ["stopped"] and
    last updated at 0 before, reads ["flying"], updated at 7. *)
Lemma relay_takeoff_rejected_is_cached :
  (forall e, (takeoff_drone net_rejecting 7 1 fleet).2 <> Raised e)
  /\ drones fleet !! 1 = Some (registered "alpha" "10.0.0.1")
  /\ drones (takeoff_drone net_rejecting 7 1 fleet).1 !! 1
     = Some (set_status "flying" 7 (registered "alpha" "10.0.0.1"))
  /\ drones (takeoff_drone net_rejecting 7 1 fleet).1 <> drones fleet.
Proof.
  assert (Hrow : drones (takeoff_drone net_rejecting 7 1 fleet).1 !! 1
                 = Some (set_status "flying" 7 (registered "alpha" "10.0.0.1"))).
  { reflexivity. }
  split; [intros e; discriminate|]. split; [reflexivity|]. split; [exact Hrow|].
  intros Heq. rewrite Heq in Hrow. discriminate Hrow.
Qed.

(** The spec's round: three vehicles, one of them unreachable.  Size 3, one
    error marker, two telemetry entries. *)
Example round_with_bravo_down :
  size (collect_telemetry net_bravo_down fleet).2 = 3%nat
  /\ size (filter (fun row => is_failed row.2 = true)
             (collect_telemetry net_bravo_down fleet).2) = 1%nat
  /\ size (filter (fun row => is_failed row.2 = false)
             (collect_telemetry net_bravo_down fleet).2) = 2%nat
  /\ (collect_telemetry net_bravo_down fleet).2 !! 2 = Some FetchFailed.
Proof.
  destruct (telemetry_round_covers_fleet net_bravo_down fleet)
    as (-> & Hentry & _ & -> & ->).
  rewrite Hentry. repeat split; vm_compute; reflexivity.
Defined.

(** C4, on the code.  Three clients, the push to the first fails.  The pass
    removes client 1, which moves client 2 into the position the loop has just
    read, and goes on from the next position: client 3 gets the snapshot,
    client 2, still connected, does not. *)
Theorem broadcast_skips_client_after_failure :
  broadcast (fun ws => negb (Nat.eqb ws 1)) [1; 2; 3]%nat
  = Finished [2; 3]%nat [3%nat].
Proof. reflexivity. Qed.

End ThreeDrones.

(** ** More on the commands, in any arithmetic *)

Section VehicleFrames.
Import Vehicle.
Context {F : Type} `{PyFloat F}.
Implicit Types (drone : DroneState F) (op : Operation F) (ops : list (Operation F)).

Lemma movement_speed_apply_op op drone :
  movement_speed (apply_op op drone) = movement_speed drone.
Proof.
  destruct drone as [fl la lo al sp ba mt tla tlo tal ms].
  destruct op as [a| |mv|mv|]; destruct fl, mt; cbn;
    unfold update_movement; cbn; try (destruct (flt _ _)); reflexivity.
Qed.

(** X1.  Landing answers success exactly when the drone is airborne; it then
    clears [is_flying] and [moving_to_target] and puts altitude and speed at
    zero, keeping latitude, longitude, battery, goal and cruise speed; on the
    ground it answers the error and returns the state as it was; a second
    landing right after any first one is rejected. *)
Theorem land_only_from_airborne drone :
  (status (snd (land drone)) = "success" <-> is_flying drone = true)
  /\ (is_flying drone = true ->
      land drone = (grounded_from drone, mkReply "success" Landed))
  /\ (is_flying drone = false ->
      land drone = (drone, mkReply "error" NotFlying))
  /\ land (fst (land drone)) = (fst (land drone), mkReply "error" NotFlying).
Proof.
  unfold land, grounded_from.
  destruct (is_flying drone) eqn:Efly; cbn; try rewrite Efly; cbn;
    repeat split; intros; try discriminate; reflexivity.
Qed.

(** X2.  From the ground, a takeoff followed by a landing ends on the ground
    with latitude, longitude, battery and goal as they were, whatever the
    altitude asked for: only altitude and speed are reset to zero and seeking
    is off. *)
Theorem takeoff_land_round_trip (altitude : F) drone :
  is_flying drone = false ->
  fst (land (fst (takeoff altitude drone))) = grounded_from drone.
Proof.
  intros Hground. unfold takeoff, land. rewrite Hground. reflexivity.
Qed.

(** X3.  A drone on the ground is inert: landing, moving, setting a goal and
    the tick all return the state they were given; only a takeoff changes
    it. *)
Theorem grounded_is_inert op drone :
  is_flying drone = false ->
  (forall altitude, op <> OpTakeoff altitude) ->
  apply_op op drone = drone.
Proof.
  intros Hground Hop.
  destruct op as [a| |mv|mv|]; cbn;
    unfold land, move, move_to, simulate_drone_step; rewrite ?Hground;
    try reflexivity.
  now destruct (Hop a).
Qed.

(** X4.  No command and no tick writes the cruise speed: after any history
    of operations it is the one the state started with, so 5.0 for the
    drone the module creates. *)
Theorem cruise_speed_constant ops drone :
  movement_speed (run ops drone) = movement_speed drone
  /\ movement_speed (run ops DroneState_init) = lit 5.
Proof.
  assert (Hrun : forall d, movement_speed (run ops d) = movement_speed d).
  { induction ops as [|op ops IH] using rev_ind; intros d; [reflexivity|].
    now rewrite run_snoc, movement_speed_apply_op. }
  split; [apply Hrun|]. now rewrite Hrun.
Qed.

(** X5.  The goal is written by an accepted [move_to] and by nothing else:
    takeoff, land, move and the tick (the snap included) leave the three
    target attributes alone, and a [move_to] while airborne stores the
    requested goal and starts seeking without touching position, altitude,
    speed or battery. *)
Theorem goal_written_only_by_move_to drone :
  (forall op, (forall mv, op <> OpMoveTo mv) ->
              target (apply_op op drone) = target drone)
  /\ (forall mv, is_flying drone = true ->
        target (apply_op (OpMoveTo mv) drone) = mv
        /\ moving_to_target (apply_op (OpMoveTo mv) drone) = true
        /\ latitude (apply_op (OpMoveTo mv) drone) = latitude drone
        /\ longitude (apply_op (OpMoveTo mv) drone) = longitude drone
        /\ altitude (apply_op (OpMoveTo mv) drone) = altitude drone
        /\ speed (apply_op (OpMoveTo mv) drone) = speed drone
        /\ battery (apply_op (OpMoveTo mv) drone) = battery drone).
Proof.
  split.
  - intros op Hop.
    destruct drone as [fl la lo al sp ba mt tla tlo tal ms].
    destruct op as [a| |mv|mv|]; [| | |now destruct (Hop mv)|];
      destruct fl, mt; cbn; unfold update_movement; cbn;
      try (destruct (flt _ _)); reflexivity.
  - intros [rla rlo ral] Hfly. cbn. unfold move_to, start_move_to.
    rewrite Hfly. cbn. repeat split.
Qed.

End VehicleFrames.

Section VehicleFramesAtInit.
Import Vehicle.

(** [takeoff_land_round_trip] from the initial state: up to 10 m and down
    again is the initial state. *)
Lemma takeoff_land_initial :
  is_flying (F := float) DroneState_init = false
  /\ fst (land (fst (takeoff (lit 10) DroneState_init)))
     = DroneState_init (F := float).
Proof.
  split; [reflexivity|].
  exact (takeoff_land_round_trip (F := float) (lit 10) DroneState_init eq_refl).
Defined.

(** [grounded_is_inert] for a tick of the initial state. *)
Lemma tick_initial_is_inert :
  is_flying (F := float) DroneState_init = false
  /\ apply_op OpTick DroneState_init = DroneState_init (F := float).
Proof.
  split; [reflexivity|].
  apply (grounded_is_inert (F := float) OpTick DroneState_init eq_refl).
  intros altitude. discriminate.
Defined.

End VehicleFramesAtInit.

(** ** More on the motion, in exact arithmetic *)

Section ExactMotion.
Import Vehicle.
Open Scope R_scope.
Implicit Types (drone : DroneState R) (op : Operation R) (ops : list (Operation R)).

Lemma battery_apply_op op drone :
  battery drone - 0.01 <= battery (apply_op op drone) <= battery drone.
Proof.
  destruct drone as [fl la lo al sp ba mt tla tlo tal ms].
  destruct op as [a| |mv|mv|]; destruct fl, mt; cbn;
    unfold update_movement; cbn; try (destruct (Rltb _ _)); cbn; lra.
Qed.

(** X6.  The battery only goes down, and by at most 0.01 per operation: after
    any history of commands and ticks it lies between the starting level less
    0.01 per operation and the starting level.  Nothing recharges it and
    nothing stops it at zero. *)
Theorem battery_only_drains ops drone :
  battery drone - INR (length ops) * 0.01 <= battery (run ops drone) <= battery drone.
Proof.
  induction ops as [|op ops IH] using rev_ind.
  - cbn. lra.
  - rewrite run_snoc, length_app, Nat.add_1_r, S_INR.
    pose proof (battery_apply_op op (run ops drone)). lra.
Qed.

Lemma speed_apply_op op drone :
  0 <= speed drone -> 0 <= movement_speed drone -> 0 <= speed (apply_op op drone).
Proof.
  intros Hsp Hms.
  assert (Hdist : forall a b c, 0 <= flat_distance a b c / 0.1).
  { intros a b c. pose proof (flat_distance_nonneg a b c) as Hd.
    apply Rmult_le_pos; [exact Hd|]. lra. }
  destruct drone as [fl la lo al sp ba mt tla tlo tal ms]. cbn in Hsp, Hms.
  destruct op as [a| |mv|mv|]; destruct fl, mt; cbn -[flat_distance];
    unfold update_movement; cbn -[flat_distance];
    try (destruct (Rltb _ _)); cbn -[flat_distance];
    try lra; try apply Hdist.
Qed.

(** X7.  The reported speed is never negative: in every state a history of
    commands and ticks reaches from the initial state, [speed >= 0]. *)
Theorem speed_never_negative ops :
  0 <= speed (run ops DroneState_init).
Proof.
  assert (Hinv : 0 <= speed (run ops DroneState_init)
                 /\ movement_speed (run ops DroneState_init) = 5).
  { induction ops as [|op ops [IHs IHm]] using rev_ind.
    - cbn. lra.
    - rewrite run_snoc. split.
      + apply speed_apply_op; [exact IHs|]. rewrite IHm. lra.
      + now rewrite movement_speed_apply_op. }
  apply Hinv.
Qed.



End ExactMotion.

(** ** After the goal, and with no goal *)

Section ExactDrift.
Import Vehicle.
Open Scope R_scope.
Implicit Types drone : DroneState R.

Lemma drift_position n : forall drone,
  is_flying drone = true -> moving_to_target drone = false ->
  is_flying (Nat.iter n simulate_drone_step drone) = true
  /\ moving_to_target (Nat.iter n simulate_drone_step drone) = false
  /\ latitude (Nat.iter n simulate_drone_step drone) = latitude drone + INR n * 0.0001
  /\ longitude (Nat.iter n simulate_drone_step drone) = longitude drone + INR n * 0.0001
  /\ altitude (Nat.iter n simulate_drone_step drone) = altitude drone.
Proof.
  induction n as [|n IH]; intros drone Hf Hm.
  - change (Nat.iter 0 simulate_drone_step drone) with drone. cbn [INR].
    repeat split; auto; lra.
  - destruct (IH drone Hf Hm) as (Hf' & Hm' & Hla & Hlo & Hal).
    change (Nat.iter (S n) simulate_drone_step drone)
      with (simulate_drone_step (Nat.iter n simulate_drone_step drone)).
    rewrite (drift_step_shape _ Hf' Hm'), S_INR. cbn.
    rewrite Hla, Hlo, Hal. repeat split; lra.
Qed.

(** X9.  The drone does not hold its goal.  The tick that finds a seeking
    drone closer than ten centimetres snaps it onto the goal, and the next
    tick, finding it airborne with no goal, moves it 0.0001 degrees off in
    latitude and in longitude at the drift speed of about 157 m/s. *)
Theorem snap_then_drift drone :
  Seeking drone -> distance_to_target drone < 0.1 ->
  snapped_to (target drone) (simulate_drone_step drone)
  /\ latitude (simulate_drone_step (simulate_drone_step drone))
     = target_latitude drone + 0.0001
  /\ longitude (simulate_drone_step (simulate_drone_step drone))
     = target_longitude drone + 0.0001
  /\ altitude (simulate_drone_step (simulate_drone_step drone))
     = target_altitude drone
  /\ 156.977 < speed (simulate_drone_step (simulate_drone_step drone)) < 156.978.
Proof.
  intros Hseek Hnear.
  rewrite (simulate_drone_step_seeking drone Hseek).
  destruct (tick_snap drone Hseek Hnear) as [Hsnap _].
  split; [exact Hsnap|].
  destruct Hsnap as (Hla & Hlo & Hal & _ & Hm).
  assert (Hf : is_flying (tick drone) = true).
  { destruct (update_movement_flags (lit 0.1) drone) as (Hfl & _).
    unfold tick. rewrite Hfl. apply Hseek. }
  rewrite (drift_step_shape _ Hf Hm). cbn -[flat_distance].
  rewrite Hla, Hlo, Hal. cbn -[flat_distance].
  pose proof drift_speed_bounds as Hb. rewrite <- drift_speed_exact in Hb.
  repeat split; try lra; apply Hb.
Qed.

(** A drone that takes off to 10 m and is sent to where it already is. *)
Lemma snap_then_drift_on_the_spot :
  (Seeking (fst (move_to (mkMoveRequest 0 0 10) (fst (takeoff 10 DroneState_init))))
   /\ distance_to_target
        (fst (move_to (mkMoveRequest 0 0 10) (fst (takeoff 10 DroneState_init))))
      < 0.1)
  /\ latitude (simulate_drone_step (simulate_drone_step
       (fst (move_to (mkMoveRequest 0 0 10) (fst (takeoff 10 DroneState_init))))))
     = 0 + 0.0001.
Proof.
  assert (Hseek : Seeking (fst (move_to (mkMoveRequest 0 0 10)
                                  (fst (takeoff 10 DroneState_init)))))
    by (split; reflexivity).
  assert (Hnear : distance_to_target
                    (fst (move_to (mkMoveRequest 0 0 10)
                            (fst (takeoff 10 DroneState_init)))) < 0.1).
  { unfold distance_to_target. rewrite flat_distance_exact. cbn.
    match goal with |- sqrt ?x < _ => replace x with 0 by lra end.
    rewrite sqrt_0. lra. }
  split; [auto|].
  exact (proj1 (proj2 (snap_then_drift _ Hseek Hnear))).
Defined.

(** X10.  With no goal an airborne drone never holds position: [n] ticks add
    [n * 0.0001] degrees to latitude and to longitude and leave the altitude,
    without bound, so that the latitude ends above 90 degrees. *)
Theorem drift_is_unbounded drone :
  is_flying drone = true -> moving_to_target drone = false ->
  (forall n,
      latitude (Nat.iter n simulate_drone_step drone) = latitude drone + INR n * 0.0001
      /\ longitude (Nat.iter n simulate_drone_step drone)
         = longitude drone + INR n * 0.0001
      /\ altitude (Nat.iter n simulate_drone_step drone) = altitude drone)
  /\ exists n, 90 < latitude (Nat.iter n simulate_drone_step drone).
Proof.
  intros Hf Hm. split.
  - intros n. destruct (drift_position n drone Hf Hm) as (_ & _ & H1 & H2 & H3).
    auto.
  - destruct (INR_unbounded ((90 - latitude drone) / 0.0001)) as [n Hn].
    exists n. destruct (drift_position n drone Hf Hm) as (_ & _ & -> & _).
    apply Rmult_lt_compat_r with (r := 0.0001) in Hn; [|lra].
    unfold Rdiv in Hn. rewrite Rmult_assoc, Rinv_l in Hn by lra. lra.
Qed.

(** Right after a takeoff to 10 m: [drift_is_unbounded] applies. *)
Lemma drift_is_unbounded_after_takeoff :
  (is_flying hovering_10m = true /\ moving_to_target hovering_10m = false)
  /\ exists n, 90 < latitude (Nat.iter n simulate_drone_step hovering_10m).
Proof.
  split; [split; reflexivity|].
  exact (proj2 (drift_is_unbounded hovering_10m eq_refl eq_refl)).
Defined.

End ExactDrift.

(** ** Registration, and what the relay leaves alone *)

Section Registry.
Import Fleet.
Context {F : Type} `{PyFloat F} (net : Request F -> Outcome F).
Implicit Types (w : World F) (drone row : Drone F) (cmd : Command F).
Implicit Types (now : Timestamp) (drone_id assigned : Z).
Implicit Types (req : DroneRegisterRequest F) (e : Event F) (events : list (Event F)).

(** X11.  Registering under a key the table does not hold inserts the row
    and nothing else: the new id resolves to [http://ip:port] of the request,
    every other id resolves as before, the table has one row more, and no call
    is made on the network (the address is not checked).  Under a key already
    taken nothing is written and the answer is the 500. *)
Theorem register_then_lookup assigned now req w :
  drones w !! assigned = None ->
  get_drone_url assigned (drones (register_drone assigned now req w).1)
  = Returned ("http://" ++ reg_ip req ++ ":" ++ reg_port req)%string
  /\ (forall other, other <> assigned ->
        drones (register_drone assigned now req w).1 !! other = drones w !! other)
  /\ size (drones (register_drone assigned now req w).1) = S (size (drones w))
  /\ wire (register_drone assigned now req w).1 = wire w
  /\ (forall now' req', register_drone assigned now' req'
                          (register_drone assigned now req w).1
                        = ((register_drone assigned now req w).1,
                           RegistrationFailed 500)).
Proof.
  intros Hfree. unfold register_drone at 1 2 3 4 6 7. rewrite Hfree. cbn [fst snd drones wire].
  split; [|split; [|split; [|split]]].
  - unfold get_drone_url. now rewrite lookup_insert_eq.
  - intros other Hother. now rewrite lookup_insert_ne.
  - now apply map_size_insert_None.
  - reflexivity.
  - intros now' req'. unfold register_drone. cbn [drones].
    now rewrite lookup_insert_eq.
Qed.

(** X12.  Once registered, a vehicle is within reach of every route: a relay
    command for the new id makes its one call on [http://ip:port] of the
    registration, and what it returns is decided by how that call ends, never
    the 404. *)
Theorem register_then_relay assigned now req now' cmd w :
  drones w !! assigned = None ->
  relay net now' assigned cmd (register_drone assigned now req w).1
  = relay_registered net now' assigned cmd (new_row now req)
      (register_drone assigned now req w).1
  /\ wire (relay net now' assigned cmd (register_drone assigned now req w).1).1
     = wire w ++ [request_of cmd (new_row now req)]
  /\ (exists route,
        url (request_of cmd (new_row now req))
        = (("http://" ++ reg_ip req ++ ":" ++ reg_port req) ++ route)%string).
Proof.
  intros Hfree.
  assert (Hrow : drones (register_drone assigned now req w).1 !! assigned
                 = Some (new_row now req)).
  { unfold register_drone. rewrite Hfree. cbn. apply lookup_insert_eq. }
  assert (Hwire : wire (register_drone assigned now req w).1 = wire w).
  { unfold register_drone. now rewrite Hfree. }
  rewrite (relay_known net _ _ _ _ _ Hrow).
  split; [reflexivity|]. split.
  - unfold relay_registered. rewrite Hwire.
    destruct (net (request_of cmd (new_row now req))); [destruct cmd|..];
      reflexivity.
  - destruct cmd; cbn; eexists; reflexivity.
Qed.

Lemma relay_table now drone_id cmd w :
  drones (relay net now drone_id cmd w).1 = drones w
  \/ (cmd <> Status
      /\ drones (relay net now drone_id cmd w).1
         = alter (cache_update cmd now) drone_id (drones w)).
Proof.
  destruct (drones w !! drone_id) as [row|] eqn:Hrow.
  - rewrite (relay_known net _ _ _ _ _ Hrow). unfold relay_registered.
    destruct (net (request_of cmd row)); [|now left..].
    destruct cmd; [right; split; [discriminate|reflexivity]..|now left].
  - left. destruct cmd; unfold relay, takeoff_drone, land_drone, move_drone,
      move_to_drone, get_drone_status, on_result;
      now rewrite send_to_drone_unknown.
Qed.

Lemma cache_update_keeps cmd now row :
  name (cache_update cmd now row) = name row
  /\ owner_id (cache_update cmd now row) = owner_id row
  /\ ip (cache_update cmd now row) = ip row
  /\ port (cache_update cmd now row) = port row
  /\ battery_level (cache_update cmd now row) = battery_level row
  /\ max_speed (cache_update cmd now row) = max_speed row
  /\ created_at (cache_update cmd now row) = created_at row.
Proof. destruct cmd; cbn; repeat split. Qed.

(** X13.  A relay command adds no row, drops none, writes no row but the one
    it addresses, and never writes an address: after it, whatever the route
    and however its call ended, the table holds the same ids and every id
    resolves to the same URL as before. *)
Theorem relay_keeps_addresses now drone_id cmd w :
  dom (drones (relay net now drone_id cmd w).1) = dom (drones w)
  /\ (forall other, other <> drone_id ->
        drones (relay net now drone_id cmd w).1 !! other = drones w !! other)
  /\ (forall any, get_drone_url any (drones (relay net now drone_id cmd w).1)
                  = get_drone_url any (drones w)).
Proof.
  destruct (relay_table now drone_id cmd w) as [->|[_ ->]]; [auto|].
  split; [apply dom_alter_L|]. split.
  - intros other Hother. now apply lookup_alter_ne.
  - intros any. unfold get_drone_url. rewrite lookup_alter.
    case_decide; [|reflexivity]. subst any.
    destruct (drones w !! drone_id) as [row|]; [|reflexivity]. cbn.
    destruct (cache_update_keeps cmd now row) as (_ & _ & -> & -> & _).
    reflexivity.
Qed.

(** X14.  A relay command makes one call on the network when the id is
    registered and none when it is not, whatever the route and however the
    call ends (no retry); and the status query writes nothing to the table. *)
Theorem relay_calls_once now drone_id cmd w :
  wire (relay net now drone_id cmd w).1
  = wire w ++ match drones w !! drone_id with
              | Some row => [request_of cmd row]
              | None => []
              end
  /\ drones (relay net now drone_id Status w).1 = drones w.
Proof.
  split.
  - destruct (drones w !! drone_id) as [row|] eqn:Hrow.
    + rewrite (relay_known net _ _ _ _ _ Hrow). unfold relay_registered.
      destruct (net (request_of cmd row)); [destruct cmd|..]; reflexivity.
    + rewrite app_nil_r.
      destruct cmd; unfold relay, takeoff_drone, land_drone, move_drone,
        move_to_drone, get_drone_status, on_result;
        now rewrite send_to_drone_unknown.
  - destruct (relay_table now drone_id Status w) as [->|[Hne _]];
      [reflexivity|now destruct Hne].
Qed.

Lemma history_snoc events e w :
  history net (events ++ [e]) w = after net e (history net events w).
Proof. unfold history. now rewrite foldl_snoc. Qed.

(** X15.  What the table can hold.  In every table that registrations,
    relay commands and telemetry rounds build from the empty one, each row
    has [battery_level] 100 (nothing ever writes the column), a status that
    is ["stopped"] or ["flying"], and a cached position whose three columns
    are all empty or all set. *)
Theorem registry_rows_wellformed events drone_id row :
  drones (history net events (mkWorld ∅ [])) !! drone_id = Some row ->
  battery_level row = 100%Z
  /\ (current_status row = "stopped" \/ current_status row = "flying")
  /\ ((current_lat row = None /\ current_lng row = None
       /\ current_altitude row = None)
      \/ (is_Some (current_lat row) /\ is_Some (current_lng row)
          /\ is_Some (current_altitude row))).
Proof.
  set (wf := fun r : Drone F =>
    battery_level r = 100%Z
    /\ (current_status r = "stopped" \/ current_status r = "flying")
    /\ ((current_lat r = None /\ current_lng r = None /\ current_altitude r = None)
        \/ (is_Some (current_lat r) /\ is_Some (current_lng r)
            /\ is_Some (current_altitude r)))).
  assert (Hupd : forall cmd now r, wf r -> wf (cache_update cmd now r)).
  { intros cmd now r (Hb & Hs & Hp). destruct cmd; cbn; unfold wf; cbn;
      repeat split; auto; right; repeat split; eauto. }
  revert drone_id row.
  induction events as [|e events IH] using rev_ind; intros drone_id row Hrow.
  - cbn in Hrow. now rewrite lookup_empty in Hrow.
  - rewrite history_snoc in Hrow. destruct e as [assigned now req|now id cmd|].
    + cbn [after] in Hrow. unfold register_drone in Hrow.
      destruct (drones (history net events (mkWorld ∅ [])) !! assigned) eqn:Hfree;
        cbn in Hrow; [now apply (IH drone_id)|].
      rewrite lookup_insert in Hrow. case_decide.
      * injection Hrow as <-. unfold wf. cbn. repeat split; auto.
      * now apply (IH drone_id).
    + cbn [after] in Hrow.
      destruct (relay_table now id cmd (history net events (mkWorld ∅ [])))
        as [Heq|[_ Heq]]; rewrite Heq in Hrow; [now apply (IH drone_id)|].
      rewrite lookup_alter in Hrow. case_decide; [|now apply (IH drone_id)].
      subst id.
      destruct (drones (history net events (mkWorld ∅ [])) !! drone_id)
        as [old|] eqn:Hold; [|discriminate].
      cbn in Hrow. injection Hrow as <-. apply Hupd. now apply (IH drone_id).
    + cbn in Hrow. now apply (IH drone_id).
Qed.

End Registry.

(** ** More on the aggregation round *)

Section RoundFootprint.
Import Fleet.
Context {F : Type} `{PyFloat F} (net : Request F -> Outcome F).
Implicit Types (w : World F) (drone : Drone F).

(** X16.  A round reads and never writes: it leaves the table as it was and
    makes exactly one call per registered vehicle, each a GET without a body
    on that vehicle's own [/api/drone/status]; with no vehicle registered it
    makes no call and assembles the empty mapping. *)
Theorem round_reads_each_vehicle_once w :
  drones (collect_telemetry net w).1 = drones w
  /\ wire (collect_telemetry net w).1
     = wire w ++ ((status_request ∘ snd) <$> map_to_list (drones w))
  /\ length (wire (collect_telemetry net w).1) = (length (wire w) + size (drones w))%nat
  /\ (forall r, r ∈ (status_request ∘ snd) <$> map_to_list (drones w) ->
        method r = GET /\ json r = None
        /\ exists drone_id drone,
             drones w !! drone_id = Some drone
             /\ url r = ("http://" ++ ip drone ++ ":" ++ port drone
                         ++ "/api/drone/status")%string)
  /\ (drones w = ∅ -> collect_telemetry net w = (w, ∅)).
Proof.
  rewrite collect_telemetry_spec. cbn [fst snd drones wire].
  split; [reflexivity|]. split; [reflexivity|]. split; [|split].
  - now rewrite length_app, length_fmap, length_map_to_list.
  - intros r Hr. apply list_elem_of_fmap in Hr as ([drone_id drone] & -> & Hin).
    apply elem_of_map_to_list in Hin. cbn. eauto 6.
  - intros Hempty. destruct w as [table calls]. cbn in *. subst table.
    now rewrite map_to_list_empty, fmap_empty, app_nil_r.
Qed.

End RoundFootprint.

Section ZeroCoordinates.
Import Fleet.
Open Scope R_scope.
Variable net : Request R -> Outcome R.

(** X17.  A cached coordinate of exactly zero is reported as missing.  The
    round passes a nullable column through [float(x) if x else None], and zero
    is falsy: a vehicle cached on the equator (or the prime meridian, or at
    altitude 0) reads in the telemetry like one with no cached position, while
    any other value comes through unchanged. *)
Theorem zero_coordinate_reads_as_missing (drone : Drone R) (body : Json R) :
  net (status_request drone) = Responded body ->
  float_if_set (Some 0) = None (A := R)
  /\ (forall x : R, x <> 0 -> float_if_set (Some x) = Some x)
  /\ (current_lat drone = Some 0 ->
      exists lng alt,
        fetch_entry net drone
        = Telemetry (name drone) body None lng alt
            (battery_level drone) (max_speed drone)).
Proof.
  intros Hnet.
  assert (Hzero : float_if_set (Some 0) = None (A := R)).
  { cbn. unfold Rtruthy. now destruct (Req_dec_T 0 0). }
  split; [exact Hzero|]. split.
  - intros x Hx. cbn. unfold Rtruthy. now destruct (Req_dec_T x 0).
  - intros Hlat. unfold fetch_entry. rewrite Hnet, Hlat, Hzero. eauto.
Qed.

End ZeroCoordinates.

(** ** More on the broadcast *)

Section BroadcastPasses.
Import Fleet.
Variable accepts : WebSocket -> bool.
Implicit Types (ws : WebSocket) (conns pre suffix delivered : list WebSocket).

Lemma list_remove_spec ws conns rest :
  list_remove ws conns = Some rest ->
  length conns = S (length rest)
  /\ (forall x, x ∈ rest -> x ∈ conns)
  /\ (forall x, x ∈ conns -> x <> ws -> x ∈ rest).
Proof.
  revert rest. induction conns as [|y l IH]; intros rest Hrem; [discriminate|].
  cbn in Hrem. destruct (Nat.eqb y ws) eqn:Heq.
  - injection Hrem as <-. apply Nat.eqb_eq in Heq. subst y.
    split; [reflexivity|]. split.
    + intros x Hx. now apply list_elem_of_further.
    + intros x Hx Hne. apply elem_of_cons in Hx as [->|Hx]; [congruence|exact Hx].
  - destruct (list_remove ws l) as [r|]; [|discriminate].
    injection Hrem as <-. destruct (IH r eq_refl) as (Hlen & Hsub & Hkeep).
    split; [cbn; now rewrite Hlen|]. split.
    + intros x Hx. apply elem_of_cons in Hx as [->|Hx];
        [apply list_elem_of_here | apply list_elem_of_further; auto].
    + intros x Hx Hne. apply elem_of_cons in Hx as [->|Hx];
        [apply list_elem_of_here | apply list_elem_of_further; auto].
Qed.

Lemma broadcast_from_outcome fuel : forall i conns delivered,
  length conns <= i + fuel ->
  exists conns' sent,
    broadcast_from accepts fuel i conns delivered = Finished conns' (delivered ++ sent)
    /\ length conns' <= length conns
    /\ (forall x, x ∈ conns' -> x ∈ conns)
    /\ (forall x, x ∈ conns -> accepts x = true -> x ∈ conns')
    /\ (forall x, x ∈ sent -> accepts x = true /\ x ∈ conns).
Proof.
  induction fuel as [|fuel IH]; intros i conns delivered Hlen; cbn;
    destruct (conns !! i) as [ws|] eqn:Hws.
  - apply lookup_lt_Some in Hws. lia.
  - exists conns, []. rewrite app_nil_r.
    split; [reflexivity|]. split; [lia|]. split; [auto|]. split; [auto|].
    intros x Hx. now apply elem_of_nil in Hx.
  - assert (Hin : ws ∈ conns) by (eapply list_elem_of_lookup_2; exact Hws).
    destruct (accepts ws) eqn:Hacc.
    + destruct (IH (S i) conns (delivered ++ [ws])) as (c & sent & -> & H1 & H2 & H3 & H4);
        [lia|].
      exists c, (ws :: sent). rewrite <- app_assoc.
      split; [reflexivity|]. split; [exact H1|]. split; [exact H2|].
      split; [exact H3|].
      intros x Hx. apply elem_of_cons in Hx as [->|Hx]; auto.
    + destruct (list_remove_elem ws conns Hin) as (rest & Hrem & Hrest).
      rewrite Hrem. destruct (list_remove_spec _ _ _ Hrem) as (_ & Hsub & Hkeep).
      destruct (IH (S i) rest delivered) as (c & sent & -> & H1 & H2 & H3 & H4);
        [lia|].
      exists c, sent.
      split; [reflexivity|]. split; [lia|]. split; [auto|]. split.
      * intros x Hx Hxacc. apply H3; [|exact Hxacc]. apply Hkeep; [exact Hx|].
        intros ->. congruence.
      * intros x Hx. destruct (H4 x Hx). auto.
  - exists conns, []. rewrite app_nil_r.
    split; [reflexivity|]. split; [lia|]. split; [auto|]. split; [auto|].
    intros x Hx. now apply elem_of_nil in Hx.
Qed.

(** X18.  What a pass can and cannot do, for any list of connections
    (repeated entries included).  It always runs to the end: [remove] never
    raises and the loop stops.  It adds no connection, drops none whose push
    goes through, and delivers only to clients that accepted the push, each
    of them still connected afterwards. *)
Theorem broadcast_pass_is_safe conns :
  exists conns' delivered',
    broadcast accepts conns = Finished conns' delivered'
    /\ length conns' <= length conns
    /\ (forall x, x ∈ conns' -> x ∈ conns)
    /\ (forall x, x ∈ conns -> accepts x = true -> x ∈ conns')
    /\ (forall x, x ∈ delivered' -> accepts x = true /\ x ∈ conns').
Proof.
  destruct (broadcast_from_outcome (length conns) 0 conns [])
    as (c & sent & Hrun & H1 & H2 & H3 & H4); [lia|].
  exists c, sent. split; [exact Hrun|]. split; [exact H1|]. split; [exact H2|].
  split; [exact H3|].
  intros x Hx. destruct (H4 x Hx) as [Hacc Hin]. auto.
Qed.

Lemma broadcast_from_all_accept fuel : forall pre suffix delivered,
  (forall x, x ∈ suffix -> accepts x = true) -> length suffix <= fuel ->
  broadcast_from accepts fuel (length pre) (pre ++ suffix) delivered
  = Finished (pre ++ suffix) (delivered ++ suffix).
Proof.
  induction fuel as [|fuel IH]; intros pre suffix delivered Hacc Hlen.
  - destruct suffix as [|ws rest]; [|cbn in Hlen; lia].
    cbn. rewrite lookup_ge_None_2 by (rewrite length_app; cbn; lia).
    now rewrite !app_nil_r.
  - destruct suffix as [|ws rest].
    { cbn. rewrite lookup_ge_None_2 by (rewrite length_app; cbn; lia).
      now rewrite !app_nil_r. }
    cbn [broadcast_from]. rewrite list_lookup_middle by reflexivity.
    rewrite (Hacc ws) by apply list_elem_of_here.
    replace (S (length pre)) with (length (pre ++ [ws]))
      by (rewrite length_app; cbn; lia).
    rewrite (cons_middle ws pre rest), app_assoc.
    rewrite IH.
    + now rewrite <- !app_assoc.
    + intros x Hx. apply Hacc. now apply list_elem_of_further.
    + cbn in Hlen. lia.
Qed.

Lemma passes_again n conns :
  passes accepts (S (S n)) conns
  = match broadcast accepts conns with
    | Finished rest _ => passes accepts (S n) rest
    | ValueError => ValueError
    | OutOfFuel => OutOfFuel
    end.
Proof. reflexivity. Qed.

Lemma broadcast_all_accept conns :
  (forall x, x ∈ conns -> accepts x = true) ->
  broadcast accepts conns = Finished conns conns.
Proof.
  intros Hacc.
  exact (broadcast_from_all_accept (length conns) [] conns [] Hacc (le_n _)).
Qed.

(** X19.  When every push goes through, a pass delivers the snapshot to every
    connection, once each and in the order of the list, and leaves the list
    as it was; so does every later pass. *)
Theorem broadcast_reaches_everyone conns :
  (forall x, x ∈ conns -> accepts x = true) ->
  broadcast accepts conns = Finished conns conns
  /\ forall n, passes accepts (S n) conns = Finished conns conns.
Proof.
  intros Hacc. split; [now apply broadcast_all_accept|].
  induction n as [|n IH].
  - cbn [passes]. now rewrite broadcast_all_accept.
  - rewrite passes_again, broadcast_all_accept by exact Hacc. exact IH.
Qed.

Lemma sweep_facts n : forall suffix,
  length suffix <= n ->
  sublist (sweep accepts suffix).1 suffix
  /\ List.filter accepts (sweep accepts suffix).1 = List.filter accepts suffix
  /\ (forallb accepts suffix = false ->
      length (sweep accepts suffix).1 < length suffix).
Proof.
  induction n as [|n IH]; intros suffix Hlen.
  - destruct suffix; [|cbn in Hlen; lia]. cbn.
    split; [constructor|]. split; [reflexivity|discriminate].
  - destruct suffix as [|ws rest].
    { cbn. split; [constructor|]. split; [reflexivity|discriminate]. }
    cbn in Hlen. cbn [sweep forallb List.filter]. destruct (accepts ws) eqn:Hacc.
    + destruct (IH rest) as (Hsub & Hfil & Hshort); [lia|].
      cbn [fst andb List.filter]. rewrite Hacc, Hfil.
      split; [now apply sublist_skip|]. split; [reflexivity|].
      intros Hsome. cbn [length]. specialize (Hshort Hsome). lia.
    + destruct rest as [|next rest'].
      { cbn. split; [apply sublist_nil_l|]. split; [reflexivity|]. lia. }
      cbn in Hlen. destruct (IH rest') as (Hsub & Hfil & _); [lia|].
      cbn [fst andb List.filter]. rewrite Hfil.
      split; [apply sublist_cons; now apply sublist_skip|].
      split; [reflexivity|].
      intros _. cbn [length]. apply sublist_length in Hsub. lia.
Qed.

Lemma forallb_filter_id conns :
  forallb accepts conns = true -> List.filter accepts conns = conns.
Proof.
  induction conns as [|ws l IH]; [reflexivity|]. cbn.
  destruct (accepts ws); [|discriminate]. cbn. intros Hl. now rewrite IH.
Qed.

Lemma passes_settled n conns :
  forallb accepts conns = true ->
  passes accepts (S n) conns = Finished conns conns.
Proof.
  intros Hall.
  assert (Hacc : forall x, x ∈ conns -> accepts x = true).
  { intros x Hx. rewrite forallb_forall in Hall. apply Hall.
    now apply list_elem_of_In. }
  induction n as [|n IH].
  - cbn [passes]. now rewrite broadcast_all_accept.
  - rewrite passes_again, broadcast_all_accept by exact Hacc. exact IH.
Qed.

(** X21.  Dead connections do not stay.  With distinct clients, each of which
    either keeps accepting or keeps failing, the loop needs no more passes
    than there are connections to be rid of every failing one, skipped or
    not: from then on the list is exactly the accepting clients, in their
    order, and each pass delivers to all of them. *)
Theorem passes_drop_every_dead_client n : forall conns,
  NoDup conns -> length conns < n ->
  passes accepts n conns
  = Finished (List.filter accepts conns) (List.filter accepts conns).
Proof.
  induction n as [|n IH]; intros conns Hnodup Hlen; [lia|].
  destruct (forallb accepts conns) eqn:Hall.
  - rewrite passes_settled by exact Hall. now rewrite forallb_filter_id.
  - destruct (sweep_facts (length conns) conns (le_n _)) as (Hsub & Hfil & Hshort).
    specialize (Hshort Hall).
    destruct n as [|n]; [destruct conns; [discriminate Hall | cbn in Hlen; lia]|].
    rewrite passes_again, (broadcast_sweep accepts conns Hnodup).
    rewrite IH.
    + now rewrite Hfil.
    + eapply sublist_NoDup; eauto.
    + lia.
Qed.

End BroadcastPasses.

(** ** The statements above at concrete inputs *)

Section FleetInstances.
Import Fleet.
Open Scope Z_scope.

(** A fourth vehicle for [fleet]. *)
Lemma register_delta_then_lookup :
  drones fleet !! 4 = None
  /\ get_drone_url 4
       (drones (register_drone 4 9
                  (mkDroneRegisterRequest "delta" 1 "10.0.0.4" "8001" (lit 50)) fleet).1)
     = Returned "http://10.0.0.4:8001"
  /\ size (drones (register_drone 4 9
                     (mkDroneRegisterRequest "delta" 1 "10.0.0.4" "8001" (lit 50))
                     fleet).1) = 4%nat.
Proof.
  split; [reflexivity|].
  destruct (register_then_lookup (F := float) 4 9
              (mkDroneRegisterRequest "delta" 1 "10.0.0.4" "8001" (lit 50))
              fleet eq_refl) as (Hurl & _ & Hsize & _).
  split; [exact Hurl|]. rewrite Hsize. reflexivity.
Defined.

(** A landing relayed to the vehicle just registered. *)
Lemma register_delta_then_land :
  drones fleet !! 4 = None
  /\ wire (relay net_down 12 4 Land
             (register_drone 4 9
                (mkDroneRegisterRequest "delta" 1 "10.0.0.4" "8001" (lit 50))
                fleet).1).1
     = [mkRequest POST "http://10.0.0.4:8001/api/drone/land" None].
Proof.
  split; [reflexivity|].
  destruct (register_then_relay net_down 4 9
              (mkDroneRegisterRequest "delta" 1 "10.0.0.4" "8001" (lit 50))
              12 Land fleet eq_refl) as (_ & Hwire & _).
  rewrite Hwire. reflexivity.
Defined.

(** A table built by a registration and a takeoff the vehicle, already
    airborne, rejects. *)
Lemma registry_rows_wellformed_after_takeoff :
  drones (history net_rejecting
            [EvRegister 1 0 (mkDroneRegisterRequest "alpha" 1 "10.0.0.1" "8001" (lit 50));
             EvRelay 7 1 Takeoff]
            (mkWorld ∅ [])) !! 1
  = Some (set_status "flying" 7 (registered "alpha" "10.0.0.1"))
  /\ battery_level (set_status "flying" 7 (registered "alpha" "10.0.0.1")) = 100.
Proof.
  split; [reflexivity|].
  exact (proj1 (registry_rows_wellformed net_rejecting
                  [EvRegister 1 0
                     (mkDroneRegisterRequest "alpha" 1 "10.0.0.1" "8001" (lit 50));
                   EvRelay 7 1 Takeoff]
                  1 (set_status "flying" 7 (registered "alpha" "10.0.0.1"))
                  eq_refl)).
Defined.

(** Zero is falsy on doubles too, with either sign. *)
Example zero_coordinate_b64 :
  float_if_set (Some (lit 0)) = None (A := float)
  /\ float_if_set (Some (fsub (lit 0) (lit 0))) = None (A := float)
  /\ float_if_set (Some (PrimFloat.opp (lit 0))) = None (A := float)
  /\ float_if_set (Some (lit 0.0001)) = Some (lit 0.0001) (A := float).
Proof. vm_compute. repeat split. Qed.

End FleetInstances.

Section ExactFleetInstances.
Import Fleet.
Open Scope R_scope.

(** A vehicle cached on the equator, reachable. *)
Lemma equator_reads_as_missing :
  exists lng alt,
    fetch_entry (fun _ => Responded (JObj []))
      (mkDrone "alpha" 1%Z (Some 0) (Some 71.4) (Some 10) "flying" 100%Z 50
               0%Z 0%Z "10.0.0.1" "8001")
    = Telemetry "alpha" (JObj []) None lng alt 100%Z 50.
Proof.
  exact (proj2 (proj2 (zero_coordinate_reads_as_missing
                         (fun _ => Responded (JObj []))
                         (mkDrone "alpha" 1%Z (Some 0) (Some 71.4) (Some 10)
                                  "flying" 100%Z 50 0%Z 0%Z "10.0.0.1" "8001")
                         (JObj []) eq_refl)) eq_refl).
Defined.

End ExactFleetInstances.

Section BroadcastInstances.
Import Fleet.

Lemma four_distinct_clients : NoDup [1; 2; 3; 4] /\ NoDup [1; 2; 3].
Proof.
  split.
  - apply (bool_decide_unpack (NoDup [1; 2; 3; 4])). vm_compute. exact I.
  - apply (bool_decide_unpack (NoDup [1; 2; 3])). vm_compute. exact I.
Qed.

(** Three clients, all accepting. *)
Lemma broadcast_reaches_all_three :
  broadcast (fun _ => true) [1; 2; 3] = Finished [1; 2; 3] [1; 2; 3].
Proof.
  exact (proj1 (broadcast_reaches_everyone (fun _ => true) [1; 2; 3]
                  (fun _ _ => eq_refl))).
Defined.

(** Four clients, the first two dead: the first pass drops client 1 and
    skips client 2, the second drops client 2. *)
Lemma passes_drop_both_dead_clients :
  passes (fun ws => Nat.ltb 2 ws) 5 [1; 2; 3; 4] = Finished [3; 4] [3; 4].
Proof.
  apply (passes_drop_every_dead_client (fun ws => Nat.ltb 2 ws) 5 [1; 2; 3; 4]).
  - apply four_distinct_clients.
  - cbn. lia.
Defined.

(** Three clients, the first dead: client 2 is kept and skipped. *)
Lemma broadcast_skips_second_of_three :
  exists conns' delivered',
    broadcast (fun ws => negb (Nat.eqb ws 1)) [1; 2; 3] = Finished conns' delivered'
    /\ (1 ∉ conns') /\ 2 ∈ conns' /\ (2 ∉ delivered').
Proof.
  apply (broadcast_skips_next (fun ws => negb (Nat.eqb ws 1)) [] 1 2 [3]).
  - apply four_distinct_clients.
  - intros x Hx. now apply elem_of_nil in Hx.
  - reflexivity.
Defined.

End BroadcastInstances.
